(** * The Flutter outline tree view of Dart-Code

    A shallow embedding of [src/views/flutter_outline_view.ts]: the
    [FlutterOutlineProvider] tree-data provider and the [FlutterWidgetItem]
    tree item, together with the few host services they call (timers, the
    [setContext] command, the tree view, the code-action provider).

    JavaScript values are modelled as follows.
    - A string is the list of its UTF-16 code units ([jsstring]).
    - A number that holds a source offset or a line is a [Z]; the sum
      [offset + length] can be [NaN] when [length] is [undefined], hence
      [JsNum].
    - An optional field is an [option]; an object with identity (a tree item)
      carries the number of its allocation.
    - The provider is a record of its fields, threaded through a state and
      exception monad; what it asks of the host is appended to a log. *)

From Stdlib Require Import ZArith NArith Lia String Ascii.
From stdpp Require Import base option list gmap.

Set Default Proof Using "Type".
Set Warnings "-register-all,-clear-no-such-hyp".
Local Open Scope Z_scope.

(** ** JavaScript strings and numbers *)

Module Js.

Definition jsstring := list N.

Definition lit (s : string) : jsstring :=
  map N_of_ascii (list_ascii_of_string s).
Arguments lit s%_string.

(** [if (s)] on an optional string: [undefined] and the empty string are
    falsy. *)
Definition truthy (s : option jsstring) : bool :=
  match s with
  | Some (_ :: _) => true
  | _ => false
  end.

(** ECMAScript [WhiteSpace] and [LineTerminator] code units, the ones that
    [String.prototype.trim] strips. *)
Definition isWhiteSpace (c : N) : bool :=
  bool_decide (c ∈ [9; 10; 11; 12; 13; 32; 160; 5760; 8232; 8233; 8239; 8287;
                    12288; 65279]%N)
  || ((8192 <=? c) && (c <=? 8202))%N.

Fixpoint trimStart (s : jsstring) : jsstring :=
  match s with
  | c :: s' => if isWhiteSpace c then trimStart s' else s
  | [] => []
  end.

Definition trimEnd (s : jsstring) : jsstring :=
  rev (trimStart (rev s)).

Definition trim (s : jsstring) : jsstring :=
  trimEnd (trimStart s).

(** [Array.prototype.join]. *)
Fixpoint join (sep : jsstring) (parts : list jsstring) : jsstring :=
  match parts with
  | [] => []
  | [p] => p
  | p :: ps => p ++ sep ++ join sep ps
  end.

(** The result of [a + b] where [b] may be [undefined]. *)
Inductive JsNum :=
| Num (z : Z)
| NaN.

Definition add (a : Z) (b : option Z) : JsNum :=
  match b with
  | Some z => Num (a + z)
  | None => NaN
  end.

(** [a > b]: any comparison with [NaN] is false. *)
Definition gt (a : JsNum) (b : Z) : bool :=
  match a with
  | Num z => b <? z
  | NaN => false
  end.

(** [if (n)] on an optional number: [undefined] and [0] are falsy. *)
Definition truthyNum (n : option Z) : bool :=
  match n with
  | Some z => negb (z =? 0)
  | None => false
  end.

Inductive JsError :=
| TypeError.

(** How a call ends: with a value, or with a thrown error (a rejected
    promise for an [async] function). *)
Inductive Completion (A : Type) :=
| Normal (a : A)
| Throw (e : JsError).
Arguments Normal {A} a.
Arguments Throw {A} e.

End Js.

Import Js.

(** ** The analysis server's types ([analysis_server_types]), as far as the
  view reads them *)

Module AS.

Record Location := { loc_offset : Z }.

Record Element := {
  name : jsstring;
  location : option Location;
  parameters : option jsstring;
  returnType : option jsstring;
  typeParameters : option jsstring;
}.

Record FlutterOutlineAttribute := {
  attr_name : jsstring;
  attr_label : jsstring;
}.

Inductive FlutterOutline := mkFlutterOutline {
  kind : jsstring;
  offset : Z;
  length : option Z;
  label : option jsstring;
  dartElement : option Element;
  attributes : option (list FlutterOutlineAttribute);
  className : option jsstring;
  variableName : option jsstring;
  children : option (list FlutterOutline);
}.

Record FlutterOutlineNotification := {
  file : jsstring;
  outline : option FlutterOutline;
}.

End AS.

(** ** The editor's types ([vscode]), as far as the view reads them *)

Module VS.

Record Position := { line : Z; character : Z }.

Record Range := { start : Position; end_ : Position }.

Record TextDocument := {
  fileName : jsstring;
  uri : jsstring;
  isClosed : bool;
  offsetAt : Position -> Z;
  positionAt : JsNum -> Position;
}.

Record TextEditor := { document : TextDocument }.

Record CodeActionKind := { value : jsstring }.

Record CodeAction := {
  ca_title : jsstring;
  kind : option CodeActionKind;
}.

Record Command := {
  title : jsstring;
  command : jsstring;
}.

(** An element of the array that [vscode.executeCodeActionProvider]
    resolves to: [vs.Command | vs.CodeAction]. *)
Inductive Fix :=
| IsCommand (c : Command)
| IsCodeAction (ca : CodeAction).

Inductive TreeItemCollapsibleState :=
| CollapsibleNone
| Collapsed
| Expanded.

(** [vs.TextEditorSelectionChangeEvent]; a [vs.Selection] is a [Range]
    of which only [start] is read. *)
Record TextEditorSelectionChangeEvent := {
  selections : list Range;
}.

End VS.

(** ** What the module takes from the rest of the extension and from the host *)

Record Env := {
  (** [isAnalyzable] of [../utils]. *)
  isAnalyzable : VS.TextDocument -> bool;
  (** [flutterOutlineCommands] of [../commands/flutter_outline]. *)
  flutterOutlineCommands : list jsstring;
  (** [extensionPath] of [../extension], and [path.join]. *)
  extensionPath : jsstring;
  path_join : jsstring -> jsstring -> jsstring;
  (** What the command [vscode.executeCodeActionProvider] resolves to for a
      document and a range. *)
  executeCodeActionProvider : jsstring -> VS.Range -> list VS.Fix;
}.

Definition DART_SHOW_FLUTTER_OUTLINE : jsstring := lit "dart-code:showFlutterOutline".
Definition DART_IS_WIDGET : jsstring := lit "dart-code:isWidget".

(** ** [FlutterWidgetItem] *)

(** The [command] of a tree item: [_dart.showCode] with its four arguments. *)
Record ShowCodeCommand := {
  arg_editor : VS.TextEditor;
  arg_fit : VS.Range;
  arg_highlight : VS.Range;
  arg_cursor : VS.Position;
  cmd_command : jsstring;
  cmd_title : jsstring;
}.

(** A tree item is an object: [objectId] is its identity, the rank of its
    allocation. [parent] is [None] for [undefined]. *)
Inductive FlutterWidgetItem := mkFlutterWidgetItem {
  objectId : nat;
  parent : option FlutterWidgetItem;
  outline : AS.FlutterOutline;
  fixes : list VS.CodeAction;
  label : jsstring;
  collapsibleState : VS.TreeItemCollapsibleState;
  iconPath : option jsstring;
  command : ShowCodeCommand;
  contextValue : option jsstring;
  tooltip : jsstring;
}.

Definition isWidget (outline : AS.FlutterOutline) : bool :=
  negb (bool_decide (AS.kind outline = lit "DART_ELEMENT")).

(** [if (field) label += prefix + field]. *)
Definition appendIf (label prefix : jsstring) (field : option jsstring) : jsstring :=
  match field with
  | Some s => if truthy field then label ++ prefix ++ s else label
  | None => label
  end.

Definition getLabel (outline : AS.FlutterOutline) : jsstring :=
  let label := [] in
  let label :=
    match AS.dartElement outline with
    | Some e =>
        let label := label ++ lit " " ++ AS.name e in
        let label := appendIf label [] (AS.typeParameters e) in
        let label := appendIf label [] (AS.parameters e) in
        appendIf label (lit " " ++ [8594%N] ++ lit " ") (AS.returnType e)
    | None => label
    end in
  let label := appendIf label (lit " ") (AS.variableName outline) in
  let label := appendIf label (lit " ") (AS.className outline) in
  let label := appendIf label (lit " ") (AS.label outline) in
  trim label.

(** [fixes.map((ca) => ca.kind.value)]: reading [value] of an [undefined]
    kind throws. *)
Fixpoint kindValues (fixes : list VS.CodeAction) : Completion (list jsstring) :=
  match fixes with
  | [] => Normal []
  | ca :: rest =>
      match VS.kind ca with
      | Some k =>
          match kindValues rest with
          | Normal vs => Normal (VS.value k :: vs)
          | Throw e => Throw e
          end
      | None => Throw TypeError
      end
  end.

Definition attributeLine (a : AS.FlutterOutlineAttribute) : jsstring :=
  AS.attr_name a ++ lit ": " ++ AS.attr_label a.

Section Constructor.

Variable env : Env.

(** [new FlutterWidgetItem(parent, outline, fixes, editor)], given the
    identity [oid] of the object being built. *)
Definition FlutterWidgetItem_new (oid : nat) (parent : option FlutterWidgetItem)
    (outline : AS.FlutterOutline) (fixes : list VS.CodeAction)
    (editor : VS.TextEditor) : Completion FlutterWidgetItem :=
  let doc := VS.document editor in
  let label := getLabel outline in
  let collapsibleState :=
    match AS.children outline with
    | Some (_ :: _) => VS.Expanded
    | _ => VS.CollapsibleNone
    end in
  let iconPath :=
    if isWidget outline
    then Some (path_join env (extensionPath env) (lit "media/icons/flutter.svg"))
    else None in
  let whole :=
    {| VS.start := VS.positionAt doc (Num (AS.offset outline));
       VS.end_ := VS.positionAt doc (add (AS.offset outline) (AS.length outline)) |} in
  let cursorOffset :=
    match AS.dartElement outline with
    | Some e =>
        match AS.location e with
        | Some l => Normal (AS.loc_offset l)
        | None => Throw TypeError
        end
    | None => Normal (AS.offset outline)
    end in
  match cursorOffset with
  | Throw e => Throw e
  | Normal cursor =>
      match kindValues fixes with
      | Throw e => Throw e
      | Normal values =>
          let refactorData :=
            join (lit "--")
              (filter (fun c => c ∈ flutterOutlineCommands env) values) in
          let contextValue :=
            match refactorData with
            | [] => None
            | _ => Some (DART_IS_WIDGET ++ lit ":--" ++ refactorData ++ lit "--")
            end in
          let tooltip :=
            match AS.attributes outline with
            | Some attrs =>
                label ++ [10%N; 32%N; 32%N]
                  ++ join [10%N; 32%N; 32%N; 32%N] (map attributeLine attrs)
            | None => label
            end in
          Normal {|
            objectId := oid;
            parent := parent;
            outline := outline;
            fixes := fixes;
            label := label;
            collapsibleState := collapsibleState;
            iconPath := iconPath;
            command := {|
              arg_editor := editor;
              arg_fit := whole;
              arg_highlight := whole;
              arg_cursor := VS.positionAt doc (Num cursor);
              cmd_command := lit "_dart.showCode";
              cmd_title := [];
            |};
            contextValue := contextValue;
            tooltip := tooltip;
          |}
      end
  end.

End Constructor.

(** ** The provider's state and the host around it *)

(** What the provider asks of the host, in the order it asks. *)
Inductive Effect :=
  (** [vs.commands.executeCommand("setContext", key, value)] *)
| SetContext (key : jsstring) (value : bool)
  (** [onDidChangeTreeDataEmitter.fire(element)]; [None] is the call without
      argument, which tells the tree view that its root has changed. *)
| FireDidChangeTreeData (element : option FlutterWidgetItem)
  (** [treeView.reveal(item)] *)
| Reveal (item : FlutterWidgetItem)
  (** [analyzer.forceNotificationsFor(file)] *)
| ForceNotificationsFor (file : jsstring)
  (** [vs.commands.executeCommand("vscode.executeCodeActionProvider", uri, range)] *)
| ExecuteCodeActionProvider (uri : jsstring) (range : VS.Range)
  (** [subscriptions.forEach((s) => s.dispose())] *)
| DisposeSubscriptions.

(** A timer of the host that has been set and has neither fired nor been
    cleared; the callback is always [() => this.update()]. *)
Record Timer := { timerId : nat; due : Z }.

Record State := mkState {
  (** the fields of [FlutterOutlineProvider] *)
  activeEditor : option VS.TextEditor;
  flutterOutline : option AS.FlutterOutlineNotification;
  treeNodesByLine : gmap Z (list FlutterWidgetItem);
  updateTimeout : option nat;
  (** the host: allocation counter of tree items, clock in milliseconds,
      pending timers, next timer handle, log of requests *)
  nextObject : nat;
  clock : Z;
  timers : list Timer;
  nextTimer : nat;
  effects : list Effect;
}.

Definition set_activeEditor (v : option VS.TextEditor) (st : State) : State :=
  mkState v (flutterOutline st) (treeNodesByLine st) (updateTimeout st)
    (nextObject st) (clock st) (timers st) (nextTimer st) (effects st).

Definition set_flutterOutline (v : option AS.FlutterOutlineNotification) (st : State) : State :=
  mkState (activeEditor st) v (treeNodesByLine st) (updateTimeout st)
    (nextObject st) (clock st) (timers st) (nextTimer st) (effects st).

Definition set_treeNodesByLine (v : gmap Z (list FlutterWidgetItem)) (st : State) : State :=
  mkState (activeEditor st) (flutterOutline st) v (updateTimeout st)
    (nextObject st) (clock st) (timers st) (nextTimer st) (effects st).

Definition set_updateTimeout (v : option nat) (st : State) : State :=
  mkState (activeEditor st) (flutterOutline st) (treeNodesByLine st) v
    (nextObject st) (clock st) (timers st) (nextTimer st) (effects st).

Definition set_nextObject (v : nat) (st : State) : State :=
  mkState (activeEditor st) (flutterOutline st) (treeNodesByLine st) (updateTimeout st)
    v (clock st) (timers st) (nextTimer st) (effects st).

Definition set_clock (v : Z) (st : State) : State :=
  mkState (activeEditor st) (flutterOutline st) (treeNodesByLine st) (updateTimeout st)
    (nextObject st) v (timers st) (nextTimer st) (effects st).

Definition set_timers (v : list Timer) (st : State) : State :=
  mkState (activeEditor st) (flutterOutline st) (treeNodesByLine st) (updateTimeout st)
    (nextObject st) (clock st) v (nextTimer st) (effects st).

Definition set_nextTimer (v : nat) (st : State) : State :=
  mkState (activeEditor st) (flutterOutline st) (treeNodesByLine st) (updateTimeout st)
    (nextObject st) (clock st) (timers st) v (effects st).

Definition set_effects (v : list Effect) (st : State) : State :=
  mkState (activeEditor st) (flutterOutline st) (treeNodesByLine st) (updateTimeout st)
    (nextObject st) (clock st) (timers st) (nextTimer st) v.

(** The state in which the constructor starts: every field [undefined],
    the per-line map empty. *)
Definition initialState : State :=
  mkState None None ∅ None 0%nat 0 [] 0%nat [].

(** ** The monad of the provider's methods: state, and a completion *)

Definition M (A : Type) : Type := State -> State * Completion A.

Definition ret {A} (a : A) : M A := fun st => (st, Normal a).

Definition throw {A} (e : JsError) : M A := fun st => (st, Throw e).

Definition bind {A B} (m : M A) (k : A -> M B) : M B :=
  fun st =>
    match m st with
    | (st', Normal a) => k a st'
    | (st', Throw e) => (st', Throw e)
    end.

Notation "'let*' x ':=' m 'in' k" := (bind m (fun x => k))
  (at level 10, x name, m at level 100, k at level 200).
Notation "m ';;' k" := (bind m (fun _ => k))
  (at level 100, k at level 200, right associativity).

Definition get : M State := fun st => (st, Normal st).

Definition modify (f : State -> State) : M unit := fun st => (f st, Normal tt).

Definition lift {A} (c : Completion A) : M A := fun st => (st, c).

Definition exec {A} (m : M A) (st : State) : State := fst (m st).

Definition result {A} (m : M A) (st : State) : Completion A := snd (m st).

Definition emit (e : Effect) : M unit :=
  modify (fun st => set_effects (effects st ++ [e]) st).

(** ** Timers of the host *)

(** [clearTimeout(handle)]: nothing happens for [undefined] or for a timer
    that is no longer pending. *)
Definition clearTimeout (handle : option nat) : M unit :=
  match handle with
  | Some h =>
      modify (fun st =>
        set_timers (filter (fun t => timerId t ≠ h) (timers st)) st)
  | None => ret tt
  end.

(** [setTimeout(() => this.update(), delay)]. *)
Definition setTimeout (delay : Z) : M nat :=
  fun st =>
    let h := nextTimer st in
    (set_nextTimer (S h)
       (set_timers (timers st ++ [{| timerId := h; due := clock st + delay |}]) st),
     Normal h).

(** ** [FlutterOutlineProvider] *)

Definition setTreeVisible (visible : bool) : M unit :=
  emit (SetContext DART_SHOW_FLUTTER_OUTLINE visible).

Definition showTree : M unit := setTreeVisible true.

Definition hideTree : M unit := setTreeVisible false.

Definition refresh : M unit := emit (FireDidChangeTreeData None).

(** The callback registered with [analyzer.registerForFlutterOutline]. *)
Definition onFlutterOutline (n : AS.FlutterOutlineNotification) : M unit :=
  let* st := get in
  match activeEditor st with
  | Some ed =>
      if bool_decide (AS.file n = VS.fileName (VS.document ed)) then
        modify (set_flutterOutline (Some n));;
        modify (set_treeNodesByLine ∅);;
        (let* st := get in clearTimeout (updateTimeout st));;
        let* h := setTimeout 200 in
        modify (set_updateTimeout (Some h))
      else ret tt
  | None => ret tt
  end.

(** The condition of the [if] of [update]. *)
Definition nothingToShow (st : State) : bool :=
  match flutterOutline st with
  | None => true
  | Some fo =>
      match activeEditor st with
      | None => true
      | Some ed =>
          negb (bool_decide (AS.file fo = VS.fileName (VS.document ed)))
          || match AS.outline fo with
             | None => true
             | Some o =>
                 match AS.children o with
                 | None => true
                 | Some [] => true
                 | Some (_ :: _) => false
                 end
             end
      end
  end.

Definition update : M unit :=
  let* st := get in
  if nothingToShow st then hideTree
  else (showTree;; refresh).

Definition highlightNodeAt_strictlyInside (offset : Z) (item : FlutterWidgetItem) : bool :=
  (AS.offset (outline item) <? offset)
  && gt (add (AS.offset (outline item)) (AS.length (outline item))) offset.

(** The [for] loop of [highlightNodeAt]. *)
Fixpoint highlightNodeAt_loop (offset : Z) (items : list FlutterWidgetItem) : M unit :=
  match items with
  | [] => ret tt
  | item :: rest =>
      if highlightNodeAt_strictlyInside offset item
      then emit (Reveal item)
      else highlightNodeAt_loop offset rest
  end.

Definition highlightNodeAt (pos : VS.Position) : M unit :=
  let* st := get in
  match treeNodesByLine st !! VS.line pos with
  | None => ret tt
  | Some items =>
      match activeEditor st with
      | None => throw TypeError
      | Some ed =>
          let offset := VS.offsetAt (VS.document ed) pos in
          highlightNodeAt_loop offset items
      end
  end.

(** The listener given to [vs.window.onDidChangeTextEditorSelection]. *)
Definition onDidChangeTextEditorSelection (e : VS.TextEditorSelectionChangeEvent) : M unit :=
  match VS.selections e with
  | s :: _ => highlightNodeAt (VS.start s)
  | [] => ret tt
  end.

Definition getTreeItem (element : FlutterWidgetItem) : FlutterWidgetItem := element.

Definition getParent (element : FlutterWidgetItem) : option FlutterWidgetItem :=
  parent element.

Definition dispose : M unit :=
  modify (set_activeEditor None);;
  emit DisposeSubscriptions.

Definition asCodeAction (f : VS.Fix) : option VS.CodeAction :=
  match f with
  | VS.IsCodeAction ca => Some ca
  | VS.IsCommand _ => None
  end.

(** [ca.kind && ca.kind.value] *)
Definition hasKindValue (ca : VS.CodeAction) : bool :=
  match VS.kind ca with
  | Some k => truthy (Some (VS.value k))
  | None => false
  end.

(** The two [filter]s of [getChildren]. *)
Definition codeActionFixes (fixes : list VS.Fix) : list VS.CodeAction :=
  List.filter hasKindValue (omap asCodeAction fixes).

(** [this.treeNodesByLine[line].push(node)], after the array is created when
    the line has none. *)
Definition pushNode (line : Z) (node : FlutterWidgetItem)
    (m : gmap Z (list FlutterWidgetItem)) : gmap Z (list FlutterWidgetItem) :=
  match m !! line with
  | None => <[line := [] ++ [node]]> m
  | Some nodes => <[line := nodes ++ [node]]> m
  end.

(** The first line of [getChildren]: the outline whose children are asked
    for; [None] is [null]. *)
Definition getChildren_outline (element : option FlutterWidgetItem) (st : State)
    : option AS.FlutterOutline :=
  match element with
  | Some el => Some (outline el)
  | None =>
      match flutterOutline st with
      | Some fo => AS.outline fo
      | None => None
      end
  end.

Section Provider.

Variable env : Env.

Definition setTrackingFile (editor : option VS.TextEditor) : M unit :=
  match editor with
  | Some ed =>
      if isAnalyzable env (VS.document ed) then
        modify (set_activeEditor (Some ed));;
        modify (set_flutterOutline None);;
        emit (ForceNotificationsFor (VS.fileName (VS.document ed)))
      else
        hideTree;;
        modify (set_activeEditor None)
  | None =>
      hideTree;;
      modify (set_activeEditor None)
  end.

(** The listener given to [vs.window.onDidChangeActiveTextEditor]. *)
Definition onDidChangeActiveTextEditor (e : option VS.TextEditor) : M unit :=
  setTrackingFile e.

(** The part of the constructor that runs at once, given
    [vs.window.activeTextEditor]. *)
Definition constructor (active : option VS.TextEditor) : M unit :=
  match active with
  | Some ed => setTrackingFile (Some ed)
  | None => ret tt
  end.

Definition getFixes (editor : option VS.TextEditor) (outline : AS.FlutterOutline)
    : M (list VS.Fix) :=
  match editor with
  | None => throw TypeError
  | Some ed =>
      let pos := VS.positionAt (VS.document ed) (Num (AS.offset outline)) in
      let range := {| VS.start := pos; VS.end_ := pos |} in
      emit (ExecuteCodeActionProvider (VS.uri (VS.document ed)) range);;
      ret (executeCodeActionProvider env (VS.uri (VS.document ed)) range)
  end.

(** [new FlutterWidgetItem(...)] as a step of the provider: the new object
    takes the next identity. *)
Definition newFlutterWidgetItem (parent : option FlutterWidgetItem)
    (outline : AS.FlutterOutline) (fixes : list VS.CodeAction)
    (editor : VS.TextEditor) : M FlutterWidgetItem :=
  let* st := get in
  let* node := lift (FlutterWidgetItem_new env (nextObject st) parent outline fixes editor) in
  modify (set_nextObject (S (nextObject st)));;
  ret node.

(** The body of the [for] loop of [getChildren] for the child [c]. *)
Definition getChildren_step (element : option FlutterWidgetItem)
    (editor : option VS.TextEditor) (c : AS.FlutterOutline)
    (children : list FlutterWidgetItem) : M (list FlutterWidgetItem) :=
  let canHaveFixes := isWidget c in
  let* fixes := (if canHaveFixes then getFixes editor c else ret []) in
  match editor with
  | Some ed =>
      if negb (VS.isClosed (VS.document ed)) then
        let* node := newFlutterWidgetItem element c (codeActionFixes fixes) ed in
        let* st := get in
        match activeEditor st with
        | None => throw TypeError
        | Some active =>
            let line := VS.line (VS.positionAt (VS.document active) (Num (AS.offset c))) in
            modify (fun st => set_treeNodesByLine (pushNode line node (treeNodesByLine st)) st);;
            ret (children ++ [node])
        end
      else ret children
  | None => ret children
  end.

Fixpoint getChildren_loop (element : option FlutterWidgetItem)
    (editor : option VS.TextEditor) (cs : list AS.FlutterOutline)
    (children : list FlutterWidgetItem) : M (list FlutterWidgetItem) :=
  match cs with
  | [] => ret children
  | c :: rest =>
      let* children' := getChildren_step element editor c children in
      getChildren_loop element editor rest children'
  end.

(** [getChildren(element)]; [None] is the call without element. Each
    [await] is taken to resume before the provider handles anything else. *)
Definition getChildren (element : option FlutterWidgetItem) : M (list FlutterWidgetItem) :=
  let* st := get in
  let outline := getChildren_outline element st in
  let children := [] in
  let editor := activeEditor st in
  match outline with
  | Some o =>
      match AS.children o with
      | Some cs =>
          if truthyNum (AS.length o)
          then getChildren_loop element editor cs children
          else ret children
      | None => ret children
      end
  | None => ret children
  end.

(** ** The host's event loop *)

Fixpoint runTimers (fired : list Timer) : M unit :=
  match fired with
  | [] => ret tt
  | _ :: rest => update;; runTimers rest
  end.

(** [dt] milliseconds pass: every pending timer that has come due fires,
    and each runs [update]. *)
Definition advance (dt : Z) : M unit :=
  modify (fun st => set_clock (clock st + dt) st);;
  let* st := get in
  let fired := filter (fun t => due t ≤ clock st) (timers st) in
  modify (set_timers (filter (fun t => ¬ due t ≤ clock st) (timers st)));;
  runTimers fired.

(** What can happen to the provider. *)
Inductive Event :=
| FlutterOutlineArrives (n : AS.FlutterOutlineNotification)
| ActiveEditorChanges (e : option VS.TextEditor)
| SelectionChanges (e : VS.TextEditorSelectionChangeEvent)
| ChildrenRequested (element : option FlutterWidgetItem)
| TimePasses (dt : Z).

Definition handle (ev : Event) : M unit :=
  match ev with
  | FlutterOutlineArrives n => onFlutterOutline n
  | ActiveEditorChanges e => onDidChangeActiveTextEditor e
  | SelectionChanges e => onDidChangeTextEditorSelection e
  | ChildrenRequested element => getChildren element;; ret tt
  | TimePasses dt => advance dt
  end.

(** The events are handled one after the other; an error thrown by a
    listener is lost to the provider, the state it left stays. *)
Fixpoint run (evs : list Event) (st : State) : State :=
  match evs with
  | [] => st
  | ev :: rest => run rest (exec (handle ev) st)
  end.

End Provider.

(** ** The label of a tree item, as described *)

Module LabelSpec.

Definition arrow : jsstring := lit " " ++ [8594%N] ++ lit " ".

(** A field that is present contributes its text. *)
Definition present (field : option jsstring) : list jsstring :=
  match field with
  | Some s => [s]
  | None => []
  end.

(** A field that is present and not the empty string contributes its text. *)
Definition nonEmpty (field : option jsstring) : list jsstring :=
  match field with
  | Some (c :: s) => [c :: s]
  | _ => []
  end.

Section Described.

(** Which fields count: [present], or [nonEmpty]. *)
Variable counted : option jsstring -> list jsstring.

(** The name, followed directly by the type parameters and the parameters,
    then by the arrow and the return type. *)
Definition elementText (e : AS.Element) : jsstring :=
  AS.name e
  ++ concat (counted (AS.typeParameters e))
  ++ concat (counted (AS.parameters e))
  ++ concat (map (app arrow) (counted (AS.returnType e))).

(** The parts of the label, in their order. *)
Definition parts (outline : AS.FlutterOutline) : list jsstring :=
  match AS.dartElement outline with
  | Some e => [elementText e]
  | None => []
  end
  ++ counted (AS.variableName outline)
  ++ counted (AS.className outline)
  ++ counted (AS.label outline).

(** The parts separated by one space, and the whole trimmed. *)
Definition described (outline : AS.FlutterOutline) : jsstring :=
  trim (join (lit " ") (parts outline)).

End Described.

(** The label of a method [build] whose return type is the empty string. *)
Definition untypedBuild : AS.FlutterOutline :=
  AS.mkFlutterOutline (lit "DART_ELEMENT") 210 (Some 400) None
    (Some {| AS.name := lit "build";
             AS.location := Some {| AS.loc_offset := 215 |};
             AS.parameters := Some (lit "(BuildContext context)");
             AS.returnType := Some [];
             AS.typeParameters := None |})
    None None None None.

End LabelSpec.

(** ** When the deferred update has nothing to show, as described *)

Module UpdateSpec.

Definition noStoredOutline (st : State) : Prop :=
  flutterOutline st = None
  ∨ ∃ fo, flutterOutline st = Some fo ∧ AS.outline fo = None.

Definition noActiveEditor (st : State) : Prop :=
  activeEditor st = None.

Definition outlineOfOtherFile (st : State) : Prop :=
  ∃ fo ed, flutterOutline st = Some fo ∧ activeEditor st = Some ed
    ∧ AS.file fo ≠ VS.fileName (VS.document ed).

Definition rootWithoutChildren (st : State) : Prop :=
  ∃ fo o, flutterOutline st = Some fo ∧ AS.outline fo = Some o
    ∧ (AS.children o = None ∨ AS.children o = Some []).

Definition mustHide (st : State) : Prop :=
  noStoredOutline st ∨ noActiveEditor st ∨ outlineOfOtherFile st
  ∨ rootWithoutChildren st.

(** The state once the tree was hidden, and once it was shown and
    refreshed. *)
Definition hidden (st : State) : State :=
  set_effects (effects st ++ [SetContext DART_SHOW_FLUTTER_OUTLINE false]) st.

Definition shown (st : State) : State :=
  set_effects
    (effects st ++ [SetContext DART_SHOW_FLUTTER_OUTLINE true;
                    FireDidChangeTreeData None]) st.

End UpdateSpec.

(** ** What one pass of the loop of [getChildren] asks and attaches *)

(** The range of [getFixes]: from the position of the node's offset to
    itself. *)
Definition getFixes_range (ed : VS.TextEditor) (c : AS.FlutterOutline) : VS.Range :=
  let pos := VS.positionAt (VS.document ed) (Num (AS.offset c)) in
  {| VS.start := pos; VS.end_ := pos |}.

(** The requests made to the code-action provider for the child [c]. *)
Definition requested (ed : VS.TextEditor) (c : AS.FlutterOutline) : list Effect :=
  if isWidget c
  then [ExecuteCodeActionProvider (VS.uri (VS.document ed)) (getFixes_range ed c)]
  else [].

(** The [codeActionFixes] given to the item created for the child [c]. *)
Definition attachedFixes (env : Env) (ed : VS.TextEditor) (c : AS.FlutterOutline)
    : list VS.CodeAction :=
  codeActionFixes
    (if isWidget c
     then executeCodeActionProvider env (VS.uri (VS.document ed)) (getFixes_range ed c)
     else []).

(** The line under which the item of the child [c] is filed. *)
Definition lineOf (ed : VS.TextEditor) (c : AS.FlutterOutline) : Z :=
  VS.line (VS.positionAt (VS.document ed) (Num (AS.offset c))).

(** One pass of the loop, in closed form. *)
Definition stepOutcome (env : Env) (element : option FlutterWidgetItem)
    (editor : option VS.TextEditor) (c : AS.FlutterOutline)
    (children : list FlutterWidgetItem) (st : State)
    : State * Completion (list FlutterWidgetItem) :=
  match editor with
  | None => if isWidget c then (st, Throw TypeError) else (st, Normal children)
  | Some ed =>
      let st1 := set_effects (effects st ++ requested ed c) st in
      if VS.isClosed (VS.document ed) then (st1, Normal children)
      else
        match FlutterWidgetItem_new env (nextObject st) element c
                (attachedFixes env ed c) ed with
        | Throw e => (st1, Throw e)
        | Normal node =>
            let st2 := set_nextObject (S (nextObject st)) st1 in
            match activeEditor st with
            | None => (st2, Throw TypeError)
            | Some active =>
                (set_treeNodesByLine
                   (pushNode (lineOf active c) node (treeNodesByLine st)) st2,
                 Normal (children ++ [node]))
            end
        end
  end.

(** ** The per-line map, as described *)

Module MapSpec.

(** Every item is filed under the line of its outline's offset in the
    active editor's document. *)
Definition keyedByLine (st : State) : Prop :=
  ∀ L items item,
    treeNodesByLine st !! L = Some items → item ∈ items →
    ∃ ed, activeEditor st = Some ed ∧ lineOf ed (outline item) = L.

(** [o] is [root] or one of the outlines below it. *)
Inductive partOf (o : AS.FlutterOutline) : AS.FlutterOutline → Prop :=
| partOf_self : partOf o o
| partOf_child root cs c :
    AS.children root = Some cs → c ∈ cs → partOf o c → partOf o root.

(** No item of the map comes from a superseded outline: each one holds a
    part of the stored outline. *)
Definition currentOnly (st : State) : Prop :=
  ∀ L items item,
    treeNodesByLine st !! L = Some items → item ∈ items →
    ∃ fo root, flutterOutline st = Some fo ∧ AS.outline fo = Some root
      ∧ partOf (outline item) root.

(** Notification handling and [getChildren] calls. *)
Definition outlineEvent (ev : Event) : Prop :=
  match ev with
  | FlutterOutlineArrives _ | ChildrenRequested _ => True
  | _ => False
  end.

End MapSpec.

(** ** The lookup of the node under the cursor, as described *)

Module SelectionSpec.

(** The outline's range strictly contains [offset]. *)
Definition strictlyContains (o : AS.FlutterOutline) (offset : Z) : Prop :=
  ∃ len, AS.length o = Some len
    ∧ AS.offset o < offset ∧ offset < AS.offset o + len.

(** The first of [items] whose outline strictly contains [offset]. *)
Fixpoint firstContaining (offset : Z) (items : list FlutterWidgetItem)
    : option FlutterWidgetItem :=
  match items with
  | [] => None
  | item :: rest =>
      match AS.length (outline item) with
      | Some len =>
          if decide (AS.offset (outline item) < offset
                     ∧ offset < AS.offset (outline item) + len)
          then Some item
          else firstContaining offset rest
      | None => firstContaining offset rest
      end
  end.

(** What the lookup reveals for a cursor at [pos] while [ed] is the active
    editor. *)
Definition revealed (st : State) (ed : VS.TextEditor) (pos : VS.Position)
    : option FlutterWidgetItem :=
  match treeNodesByLine st !! VS.line pos with
  | Some items => firstContaining (VS.offsetAt (VS.document ed) pos) items
  | None => None
  end.

End SelectionSpec.

(** ** Debouncing, as described *)

Module DebounceSpec.

(** The only timer that can be pending is the one whose handle the provider
    holds. *)
Definition timersTracked (st : State) : Prop :=
  ∀ t, t ∈ timers st → updateTimeout st = Some (timerId t).

(** One update is pending, 200 ms ahead, the outline of [n] is stored and the
    per-line map is empty; [log] is what was asked of the host so far. *)
Definition settled (st : State) (ed : VS.TextEditor)
    (n : AS.FlutterOutlineNotification) (log : list Effect) : Prop :=
  activeEditor st = Some ed
  ∧ flutterOutline st = Some n
  ∧ treeNodesByLine st = ∅
  ∧ effects st = log
  ∧ ∃ h, updateTimeout st = Some h
      ∧ timers st = [{| timerId := h; due := clock st + 200 |}].

(** A burst: each notification arrives less than 200 ms after the one
    before it. *)
Definition burst (ed : VS.TextEditor) (rest : list (Z * AS.FlutterOutlineNotification))
    : Prop :=
  Forall (λ gn, 0 ≤ gn.1 < 200 ∧ AS.file gn.2 = VS.fileName (VS.document ed)) rest.

Definition burstEvents (rest : list (Z * AS.FlutterOutlineNotification)) : list Event :=
  flat_map (λ gn, [TimePasses gn.1; FlutterOutlineArrives gn.2]) rest.

(** The last notification of the burst that [n0] begins. *)
Definition lastOf (n0 : AS.FlutterOutlineNotification)
    (rest : list (Z * AS.FlutterOutlineNotification)) : AS.FlutterOutlineNotification :=
  List.last (map snd rest) n0.

(** The state in which the pending update runs, [dt] ms later. *)
Definition fired (dt : Z) (st : State) : State :=
  set_timers [] (set_clock (clock st + dt) st).

End DebounceSpec.

(** ** Refreshing the tree, as described *)

Module RefreshSpec.

(** What a step asks of the host. *)
Definition announced (m : M unit) (st : State) : list Effect :=
  drop (List.length (effects st)) (effects (exec m st)).

(** An update by diffing tells the tree view which items changed; it does
    not tell it that the whole tree did. *)
Definition incremental (st : State) : Prop :=
  FireDidChangeTreeData None ∉ announced update st.

(** The objects that exist in [st]. *)
Definition allocated (st : State) (item : FlutterWidgetItem) : Prop :=
  (objectId item < nextObject st)%nat.

End RefreshSpec.

(** ** Further vocabulary for the provider's behaviour *)

Module Behaviour.

(** A request to the code-action provider. *)
Definition isProviderRequest (e : Effect) : Prop :=
  match e with
  | ExecuteCodeActionProvider _ _ => True
  | _ => False
  end.

(** The cursor position of the item's command can be computed: a
    [dartElement], when there is one, has a [location]. *)
Definition hasLocation (c : AS.FlutterOutline) : Prop :=
  match AS.dartElement c with
  | Some e => is_Some (AS.location e)
  | None => True
  end.

(** What one pass of the loop asks of the provider for the child [c]. *)
Definition requested_by (editor : option VS.TextEditor) (c : AS.FlutterOutline)
    : list Effect :=
  match editor with
  | Some ed => requested ed c
  | None => []
  end.

(** The children that the loop of [getChildren] goes through: those of the
    outline asked for, when it has children and a truthy [length]. *)
Definition loopedChildren (element : option FlutterWidgetItem) (st : State)
    : list AS.FlutterOutline :=
  match getChildren_outline element st with
  | Some o =>
      match AS.children o with
      | Some cs => if truthyNum (AS.length o) then cs else []
      | None => []
      end
  | None => []
  end.


(** [item] is filed in the per-line map under [line]. *)
Definition filedUnder (st : State) (line : Z) (item : FlutterWidgetItem) : Prop :=
  ∃ items, treeNodesByLine st !! line = Some items ∧ item ∈ items.

(** [needle] occurs in [hay]. *)
Definition occursIn (needle hay : jsstring) : Prop :=
  ∃ before after, hay = before ++ needle ++ after.

(** The string begins with a white-space code unit. *)
Definition startsWithSpace (s : jsstring) : Prop :=
  match s with
  | c :: _ => isWhiteSpace c = true
  | [] => False
  end.

Definition endsWithSpace (s : jsstring) : Prop := startsWithSpace (rev s).

(** The stored outline, when there is an active editor too, is that of the
    active editor's file. *)
Definition outlineOfActiveFile (st : State) : Prop :=
  ∀ ed fo, activeEditor st = Some ed → flutterOutline st = Some fo →
    AS.file fo = VS.fileName (VS.document ed).

End Behaviour.

(** ** A concrete host, for the examples *)

Module Sample.

(** A document whose lines all hold 100 characters. *)
Definition document (file : jsstring) (closed : bool) : VS.TextDocument := {|
  VS.fileName := file;
  VS.uri := lit "file://" ++ file;
  VS.isClosed := closed;
  VS.offsetAt := fun p => VS.line p * 100 + VS.character p;
  VS.positionAt := fun n =>
    match n with
    | Num z => {| VS.line := z / 100; VS.character := z mod 100 |}
    | NaN => {| VS.line := 0; VS.character := 0 |}
    end;
|}.

Definition mainDart : VS.TextEditor :=
  {| VS.document := document (lit "/app/lib/main.dart") false |}.

Definition closedDart : VS.TextEditor :=
  {| VS.document := document (lit "/app/lib/main.dart") true |}.

Definition wrapAction : VS.CodeAction :=
  {| VS.ca_title := lit "Wrap with Center";
     VS.kind := Some {| VS.value := lit "refactor.flutter.wrap.center" |} |}.

Definition emptyKindAction : VS.CodeAction :=
  {| VS.ca_title := lit "Empty kind"; VS.kind := Some {| VS.value := [] |} |}.

Definition noKindAction : VS.CodeAction :=
  {| VS.ca_title := lit "No kind"; VS.kind := None |}.

Definition someCommand : VS.Command :=
  {| VS.title := lit "Organize"; VS.command := lit "dart.organize" |}.

Definition readme : VS.TextEditor :=
  {| VS.document := document (lit "/app/README.md") false |}.

(** Dart files are analyzable, the read-me is not. *)
Definition env : Env := {|
  isAnalyzable := fun d => negb (bool_decide (VS.fileName d = lit "/app/README.md"));
  flutterOutlineCommands := [lit "refactor.flutter.wrap.center"];
  extensionPath := lit "/ext";
  path_join := fun a b => a ++ lit "/" ++ b;
  executeCodeActionProvider := fun _ _ =>
    [VS.IsCommand someCommand; VS.IsCodeAction wrapAction;
     VS.IsCodeAction emptyKindAction; VS.IsCodeAction noKindAction];
|}.

(** An outline node with only its kind, range and children set. *)
Definition node (kind : jsstring) (offset : Z) (length : option Z)
    (children : option (list AS.FlutterOutline)) : AS.FlutterOutline :=
  AS.mkFlutterOutline kind offset length None None None None None children.

(** The outline of an instance creation of the class [className]. *)
Definition widget (className : jsstring) (offset length : Z)
    (children : list AS.FlutterOutline) : AS.FlutterOutline :=
  AS.mkFlutterOutline (lit "NEW_INSTANCE") offset (Some length) None None None
    (Some className) None (Some children).

(** The outline of a method [Widget name(BuildContext context)], whose name
    starts 7 characters after the declaration does. *)
Definition method (name : jsstring) (offset length : Z)
    (children : list AS.FlutterOutline) : AS.FlutterOutline :=
  AS.mkFlutterOutline (lit "DART_ELEMENT") offset (Some length) None
    (Some {| AS.name := name;
             AS.location := Some {| AS.loc_offset := offset + 7 |};
             AS.parameters := Some (lit "(BuildContext context)");
             AS.returnType := Some (lit "Widget");
             AS.typeParameters := None |})
    None None None (Some children).

(** [build] at offset 210 holds a [Container] at 320, which holds a [Text]
    at 430. *)
Definition text : AS.FlutterOutline := widget (lit "Text") 430 20 [].
Definition container : AS.FlutterOutline := widget (lit "Container") 320 200 [text].
Definition build : AS.FlutterOutline := method (lit "build") 210 400 [container].
Definition unit_ : AS.FlutterOutline :=
  node (lit "DART_ELEMENT") 0 (Some 1000) (Some [build]).

Definition notification : AS.FlutterOutlineNotification :=
  {| AS.file := lit "/app/lib/main.dart"; AS.outline := Some unit_ |}.

(** A later outline of the same file, in which [build] holds a single
    [Column] at 350. *)
Definition column : AS.FlutterOutline := widget (lit "Column") 350 100 [].
Definition build' : AS.FlutterOutline := method (lit "build") 210 400 [column].
Definition unit' : AS.FlutterOutline :=
  node (lit "DART_ELEMENT") 0 (Some 1000) (Some [build']).

Definition notification' : AS.FlutterOutlineNotification :=
  {| AS.file := lit "/app/lib/main.dart"; AS.outline := Some unit' |}.

Definition otherNotification : AS.FlutterOutlineNotification :=
  {| AS.file := lit "/app/lib/other.dart"; AS.outline := Some unit_ |}.

(** The provider once [main.dart] is the active editor. *)
Definition tracking : State :=
  exec (constructor env (Some mainDart)) initialState.

(** The first outline has arrived. *)
Definition outlined : State := exec (onFlutterOutline notification) tracking.

(** The tree view has asked for the top-level items: the one of [build]. *)
Definition topItems : list FlutterWidgetItem :=
  match result (getChildren env None) outlined with
  | Normal items => items
  | Throw _ => []
  end.

Definition listed : State := exec (getChildren env None) outlined.

Definition buildItem : option FlutterWidgetItem := head topItems.

(** The tree view has asked for the items under [build]: the one of
    [Container]. *)
Definition buildItems : list FlutterWidgetItem :=
  match result (getChildren env buildItem) listed with
  | Normal items => items
  | Throw _ => []
  end.

Definition expanded : State := exec (getChildren env buildItem) listed.

(** The document of [main.dart] was closed before the tree view asked for
    the items under [build]. *)
Definition closedListed : State := set_activeEditor (Some closedDart) listed.

(** The user then turns to the read-me. *)
Definition untrackedTrace : list Event :=
  [FlutterOutlineArrives notification; ChildrenRequested None;
   ChildrenRequested buildItem; ActiveEditorChanges (Some readme)].

Definition untracked : State := run env untrackedTrace tracking.

(** The root of an outline whose [length] is 0 although it has a child. *)
Definition emptyRoot : AS.FlutterOutline :=
  node (lit "DART_ELEMENT") 0 (Some 0) (Some [build]).

Definition emptyRange : AS.FlutterOutlineNotification :=
  {| AS.file := lit "/app/lib/main.dart"; AS.outline := Some emptyRoot |}.

Definition emptyOutlined : State := exec (onFlutterOutline emptyRange) tracking.

(** The tree view asks for the items under [build] after the second outline
    has arrived and before the deferred update has run. *)
Definition staleTrace : list Event :=
  [FlutterOutlineArrives notification; ChildrenRequested None;
   FlutterOutlineArrives notification'; ChildrenRequested buildItem].

Definition staleState : State := run env staleTrace tracking.

Definition cursorAt (line character : Z) : VS.TextEditorSelectionChangeEvent :=
  let p := {| VS.line := line; VS.character := character |} in
  {| VS.selections := [{| VS.start := p; VS.end_ := p |}] |}.

(** Three notifications for [main.dart], 50 and 120 ms apart. *)
Definition burstRest : list (Z * AS.FlutterOutlineNotification) :=
  [(50, notification'); (120, notification)].

Definition burstState : State :=
  run env (DebounceSpec.burstEvents burstRest) (exec (onFlutterOutline notification) tracking).

(** The same outline arrives a second time, after the tree view has shown
    the first and asked for its top-level items. *)
Definition repeatedTrace : list Event :=
  [FlutterOutlineArrives notification; TimePasses 200; ChildrenRequested None;
   FlutterOutlineArrives notification].

Definition repeated : State := run env repeatedTrace tracking.

(** The items that the tree view was given for the first outline. *)
Definition firstItems : list FlutterWidgetItem :=
  match result (getChildren env None)
          (run env [FlutterOutlineArrives notification; TimePasses 200] tracking) with
  | Normal items => items
  | Throw _ => []
  end.

(** The second update is due. *)
Definition repeatedDue : State := DebounceSpec.fired 200 repeated.

Definition repeatedItems : list FlutterWidgetItem :=
  match result (getChildren env None) (exec update repeatedDue) with
  | Normal items => items
  | Throw _ => []
  end.

Definition otherDart : VS.TextEditor :=
  {| VS.document := document (lit "/app/lib/other.dart") false |}.

(** The user turns from [main.dart] to [other.dart]. *)
Definition switched : State := exec (setTrackingFile env (Some otherDart)) expanded.





End Sample.

(** * Properties *)

(** ** Strings *)

Lemma trimStart_space (s : jsstring) : trimStart (lit " " ++ s) = trimStart s.
Proof. reflexivity. Qed.

Lemma trim_space (s : jsstring) : trim (lit " " ++ s) = trim s.
Proof. unfold trim. by rewrite trimStart_space. Qed.

(** Putting the separator before every part is putting it before the
    joined parts. *)
Lemma concat_sep_join (sep : jsstring) (parts : list jsstring) :
  parts ≠ [] → concat (map (app sep) parts) = sep ++ join sep parts.
Proof.
  induction parts as [|p ps IH]; [done|]. intros _.
  destruct ps as [|q ps].
  - simpl. by rewrite !app_nil_r.
  - change (concat (map (app sep) (p :: q :: ps)))
      with ((sep ++ p) ++ concat (map (app sep) (q :: ps))).
    rewrite IH by done.
    change (join sep (p :: q :: ps)) with (p ++ sep ++ join sep (q :: ps)).
    by rewrite <- app_assoc.
Qed.

Lemma trim_concat_sep_join (parts : list jsstring) :
  trim (concat (map (app (lit " ")) parts)) = trim (join (lit " ") parts).
Proof.
  destruct parts as [|p ps]; [done|].
  rewrite concat_sep_join by done. apply trim_space.
Qed.

Lemma appendIf_nonEmpty (label prefix : jsstring) (field : option jsstring) :
  appendIf label prefix field
  = label ++ concat (map (app prefix) (LabelSpec.nonEmpty field)).
Proof.
  destruct field as [[|c s]|]; simpl; by rewrite ?app_nil_r.
Qed.

(** ** C6: the label *)

(** Before trimming, [getLabel] holds every counted part with a space in
    front of it. *)
Lemma getLabel_parts (outline : AS.FlutterOutline) :
  getLabel outline
  = trim (concat (map (app (lit " ")) (LabelSpec.parts LabelSpec.nonEmpty outline))).
Proof.
  unfold getLabel, LabelSpec.parts. f_equal.
  rewrite !appendIf_nonEmpty, !map_app, !concat_app, !app_assoc.
  do 3 f_equal.
  destruct (AS.dartElement outline) as [e|]; [|done].
  rewrite !appendIf_nonEmpty. unfold LabelSpec.elementText.
  change (map (app []) ?l) with (map (fun x : jsstring => x) l).
  rewrite !map_id. simpl. rewrite app_nil_r.
  fold (LabelSpec.arrow). by rewrite <- !app_assoc.
Qed.

(** C6, as amended. For every outline node the label is the trimmed,
    space-separated concatenation of: the [dartElement]'s name followed
    directly by its type parameters and parameters when these are present
    and non-empty, and by [" → "] and its return type when that is present
    and non-empty; then the [variableName], [className] and [label] fields,
    each when present and non-empty. A node with none of these fields has
    the empty label. *)
Theorem getLabel_described :
  (∀ outline : AS.FlutterOutline,
     getLabel outline = LabelSpec.described LabelSpec.nonEmpty outline)
  ∧ (∀ kind offset length attributes children,
       getLabel (AS.mkFlutterOutline kind offset length None None attributes
                   None None children) = []).
Proof.
  split.
  - intros outline. rewrite getLabel_parts. apply trim_concat_sep_join.
  - reflexivity.
Qed.

(** C6, as first stated, counts a field that is present; [getLabel] tests
    it for truth, and the empty string is not true. For a method whose
    return type is the empty string the description gives ["build(BuildContext
    context) →"], [getLabel] gives ["build(BuildContext context)"]. *)
Lemma getLabel_present_fails :
  getLabel LabelSpec.untypedBuild = lit "build(BuildContext context)"
  ∧ LabelSpec.described LabelSpec.present LabelSpec.untypedBuild
    = lit "build(BuildContext context)" ++ [32%N; 8594%N]
  ∧ ¬ (∀ outline : AS.FlutterOutline,
         getLabel outline = LabelSpec.described LabelSpec.present outline).
Proof.
  split; [reflexivity|]. split; [reflexivity|].
  intros H. specialize (H LabelSpec.untypedBuild). vm_compute in H. discriminate H.
Qed.

(** ** Steps of the monad *)

Lemma bind_normal {A B} (m : M A) (k : A → M B) st st' a :
  m st = (st', Normal a) → bind m k st = k a st'.
Proof. unfold bind. by intros ->. Qed.

Lemma bind_throw {A B} (m : M A) (k : A → M B) st st' e :
  m st = (st', Throw e) → bind m k st = (st', Throw e).
Proof. unfold bind. by intros ->. Qed.

Lemma set_effects_app (st : State) (e1 e2 : list Effect) :
  set_effects (effects (set_effects (effects st ++ e1) st) ++ e2)
    (set_effects (effects st ++ e1) st)
  = set_effects (effects st ++ e1 ++ e2) st.
Proof. unfold set_effects. simpl. by rewrite <- app_assoc. Qed.

Ltac unfold_monad_in H :=
  unfold emit, exec, result, bind, get, modify, ret, throw, lift in H; simpl in H.

Ltac unfold_monad :=
  unfold emit, exec, result, bind, get, modify, ret, throw, lift; simpl.

(** ** C4: a notification for another file *)

(** C4. A flutter-outline notification whose file differs from the active
    editor's document file name, or that arrives when there is no active
    editor, changes nothing: the stored outline, the per-line node map, the
    timer handle and the pending timers are as before (and so is the rest
    of the state). *)
Theorem onFlutterOutline_other_file (n : AS.FlutterOutlineNotification) (st : State) :
  (activeEditor st = None
   ∨ ∃ ed, activeEditor st = Some ed
       ∧ AS.file n ≠ VS.fileName (VS.document ed)) →
  onFlutterOutline n st = (st, Normal tt)
  ∧ flutterOutline (exec (onFlutterOutline n) st) = flutterOutline st
  ∧ treeNodesByLine (exec (onFlutterOutline n) st) = treeNodesByLine st
  ∧ updateTimeout (exec (onFlutterOutline n) st) = updateTimeout st
  ∧ timers (exec (onFlutterOutline n) st) = timers st.
Proof.
  intros H.
  assert (onFlutterOutline n st = (st, Normal tt)) as Hsame.
  { unfold onFlutterOutline. unfold_monad.
    destruct H as [-> | (ed & -> & Hfile)]; [done|].
    by rewrite bool_decide_eq_false_2. }
  unfold exec. by rewrite Hsame.
Qed.

(** Neither a notification for [other.dart] while [main.dart] is active, nor
    any notification while no editor is active, is taken. *)
Lemma onFlutterOutline_other_file_witness :
  onFlutterOutline Sample.otherNotification Sample.outlined
  = (Sample.outlined, Normal tt)
  ∧ onFlutterOutline Sample.notification initialState = (initialState, Normal tt).
Proof.
  split.
  - apply (onFlutterOutline_other_file Sample.otherNotification Sample.outlined).
    right. exists Sample.mainDart. split; [reflexivity|]. vm_compute. discriminate.
  - apply (onFlutterOutline_other_file Sample.notification initialState).
    left. reflexivity.
Defined.

(** ** C5: the deferred update *)

Lemma nothingToShow_mustHide (st : State) :
  nothingToShow st = true ↔ UpdateSpec.mustHide st.
Proof.
  unfold nothingToShow, UpdateSpec.mustHide, UpdateSpec.noStoredOutline,
    UpdateSpec.noActiveEditor, UpdateSpec.outlineOfOtherFile,
    UpdateSpec.rootWithoutChildren.
  destruct (flutterOutline st) as [fo|] eqn:Hfo; [|naive_solver].
  destruct (activeEditor st) as [ed|] eqn:Hed; [|naive_solver].
  destruct (decide (AS.file fo = VS.fileName (VS.document ed))) as [Hfile|Hfile].
  - rewrite bool_decide_eq_true_2 by done. simpl.
    destruct (AS.outline fo) as [o|] eqn:Ho; [|naive_solver].
    destruct (AS.children o) as [[|c cs]|] eqn:Hcs; naive_solver.
  - rewrite bool_decide_eq_false_2 by done. simpl. split; [|done]. intros _.
    right. right. left. by exists fo, ed.
Qed.

(** [update] in closed form. *)
Lemma update_outcome (st : State) :
  update st
  = if nothingToShow st then (UpdateSpec.hidden st, Normal tt)
    else (UpdateSpec.shown st, Normal tt).
Proof.
  unfold update. unfold_monad. destruct (nothingToShow st); [done|].
  unfold showTree, refresh, setTreeVisible. unfold_monad.
  unfold UpdateSpec.shown, set_effects. simpl. by rewrite <- app_assoc.
Qed.

(** C5. When the deferred update runs, exactly one of two things happens.
    If there is no stored outline, or no active editor, or the stored
    outline's file differs from the active editor's document file name, or
    the outline's root has no children, the show-outline context key is set
    to false and nothing else is asked of the host (no refresh event).
    Otherwise the context key is set to true and then one change event is
    fired without an element, that is for the whole tree. *)
Theorem update_hides_or_shows (st : State) :
  (UpdateSpec.mustHide st ∧ update st = (UpdateSpec.hidden st, Normal tt))
  ∨ (¬ UpdateSpec.mustHide st ∧ update st = (UpdateSpec.shown st, Normal tt)).
Proof.
  rewrite update_outcome, <- nothingToShow_mustHide.
  destruct (nothingToShow st); [by left|right]. by split.
Qed.

(** ** C8: an outline whose length is falsy *)

(** C8. When the [length] of the outline whose children are asked for is 0
    or undefined, [getChildren] returns the empty list and touches nothing,
    whatever the outline's [children] hold: the guard reads the source
    length of the node, not the number of its children. *)
Theorem getChildren_falsy_length (env : Env) (element : option FlutterWidgetItem)
    (st : State) (o : AS.FlutterOutline) :
  getChildren_outline element st = Some o →
  AS.length o = None ∨ AS.length o = Some 0 →
  getChildren env element st = (st, Normal []).
Proof.
  intros Ho Hlen. unfold getChildren. unfold_monad. rewrite Ho.
  destruct (AS.children o); [|done].
  by destruct Hlen as [-> | ->].
Qed.

(** The root of the stored outline has one child and the length 0: no item
    is returned for it. *)
Lemma getChildren_falsy_length_witness :
  getChildren_outline None Sample.emptyOutlined = Some Sample.emptyRoot
  ∧ AS.children Sample.emptyRoot = Some [Sample.build]
  ∧ getChildren Sample.env None Sample.emptyOutlined
    = (Sample.emptyOutlined, Normal []).
Proof.
  split; [reflexivity|]. split; [reflexivity|].
  apply (getChildren_falsy_length Sample.env None Sample.emptyOutlined
           Sample.emptyRoot).
  - reflexivity.
  - right. reflexivity.
Defined.

(** ** The loop of [getChildren] *)

Section Loop.

Variable env : Env.

Lemma FlutterWidgetItem_new_fields oid parent0 o fs ed node :
  FlutterWidgetItem_new env oid parent0 o fs ed = Normal node →
  objectId node = oid ∧ parent node = parent0 ∧ outline node = o
  ∧ fixes node = fs ∧ label node = getLabel o.
Proof.
  unfold FlutterWidgetItem_new. intros H.
  repeat case_match; simplify_eq; done.
Qed.

Lemma set_effects_nil (st : State) : set_effects (effects st ++ []) st = st.
Proof. destruct st. unfold set_effects. simpl. by rewrite app_nil_r. Qed.

Lemma getChildren_step_outcome element editor c children st :
  getChildren_step env element editor c children st
  = stepOutcome env element editor c children st.
Proof.
  unfold getChildren_step, stepOutcome, getFixes, newFlutterWidgetItem,
    requested, attachedFixes.
  destruct editor as [ed|]; destruct (isWidget c); unfold_monad;
    rewrite ?set_effects_nil; try done.
  - destruct (VS.isClosed (VS.document ed)); simpl; [done|].
    destruct (FlutterWidgetItem_new _ _ _ _ _ _); simpl; [|done].
    by destruct (activeEditor st).
  - destruct (VS.isClosed (VS.document ed)); simpl; [done|].
    destruct (FlutterWidgetItem_new _ _ _ _ _ _); simpl; [|done].
    by destruct (activeEditor st).
Qed.

Lemma getChildren_loop_cons element editor c rest children st :
  getChildren_loop env element editor (c :: rest) children st
  = match stepOutcome env element editor c children st with
    | (st', Normal children') => getChildren_loop env element editor rest children' st'
    | (st', Throw e) => (st', Throw e)
    end.
Proof.
  change (getChildren_loop env element editor (c :: rest) children st)
    with (bind (getChildren_step env element editor c children)
            (getChildren_loop env element editor rest) st).
  unfold bind. by rewrite getChildren_step_outcome.
Qed.

(** What the loop leaves alone, however it ends. *)
Lemma getChildren_loop_frame element editor cs children st st' r :
  getChildren_loop env element editor cs children st = (st', r) →
  activeEditor st' = activeEditor st
  ∧ flutterOutline st' = flutterOutline st
  ∧ updateTimeout st' = updateTimeout st
  ∧ timers st' = timers st
  ∧ clock st' = clock st
  ∧ nextTimer st' = nextTimer st.
Proof.
  revert children st. induction cs as [|c rest IH]; intros children st.
  - by intros [= <- <-].
  - rewrite getChildren_loop_cons. unfold stepOutcome.
    repeat case_match; simplify_eq; intros Hloop.
    all: try (by injection Hloop as <- <-).
    all: apply IH in Hloop; simpl in Hloop; intuition congruence.
Qed.

(** The items that the loop adds are new objects whose parent is the
    element that was asked for. *)
Lemma getChildren_loop_items element editor cs children st st' items :
  getChildren_loop env element editor cs children st = (st', Normal items) →
  (nextObject st ≤ nextObject st')%nat
  ∧ ∃ new, items = children ++ new
      ∧ Forall (λ item, parent item = element
                  ∧ (nextObject st ≤ objectId item < nextObject st')%nat) new.
Proof.
  revert children st. induction cs as [|c rest IH]; intros children st.
  - intros [= <- <-]. split; [done|]. exists []. by rewrite app_nil_r.
  - rewrite getChildren_loop_cons. unfold stepOutcome.
    repeat case_match; simplify_eq; try done; intros Hloop;
      apply IH in Hloop as (Hle & new & -> & Hnew); simpl in Hle.
    + split; [done|]. by exists new.
    + split; [lia|].
      match goal with
      | H : FlutterWidgetItem_new _ _ _ _ _ _ = Normal ?node |- _ =>
          apply FlutterWidgetItem_new_fields in H as (Hid & Hparent & _);
          exists (node :: new)
      end.
      split; [by rewrite <- app_assoc|].
      constructor.
      * split; [done|]. lia.
      * eapply Forall_impl; [exact Hnew|]. simpl. intros item [? ?]. split; [done|lia].
    + split; [done|]. by exists new.
Qed.

Lemma getChildren_loop_fixes element ed cs children st st' items :
  getChildren_loop env element (Some ed) cs children st = (st', Normal items) →
  effects st' = effects st ++ flat_map (requested ed) cs
  ∧ if VS.isClosed (VS.document ed) then items = children
    else ∃ new, items = children ++ new
           ∧ Forall2 (λ item c, outline item = c
                        ∧ fixes item = attachedFixes env ed c) new cs.
Proof.
  revert children st. induction cs as [|c rest IH]; intros children st.
  - intros [= <- <-]. simpl. rewrite app_nil_r. split; [done|].
    destruct (VS.isClosed _); [done|]. exists []. by rewrite app_nil_r.
  - rewrite getChildren_loop_cons. unfold stepOutcome.
    destruct (VS.isClosed (VS.document ed)) eqn:Hclosed.
    + intros Hloop. apply IH in Hloop as [Heff Hitems]. simpl in Heff.
      split; [|done]. rewrite Heff. simpl. by rewrite <- app_assoc.
    + destruct (FlutterWidgetItem_new _ _ _ _ _ _) as [node|] eqn:Hnode; [|done].
      destruct (activeEditor st); [|done].
      intros Hloop. apply IH in Hloop as (Heff & new & -> & Hnew). simpl in Heff.
      split; [rewrite Heff; simpl; by rewrite <- app_assoc|].
      exists (node :: new). split; [by rewrite <- app_assoc|].
      apply FlutterWidgetItem_new_fields in Hnode as (_ & _ & ? & ? & _).
      by constructor.
Qed.

End Loop.

(** ** C9: the parent of an item *)

(** C9. For every element [e] (or none) and every item that
    [getChildren(e)] returns, [getParent] of that item is [e] itself; for
    the items of a call without element it is [undefined]. *)
Theorem getChildren_getParent (env : Env) (element : option FlutterWidgetItem)
    (st st' : State) (items : list FlutterWidgetItem) :
  getChildren env element st = (st', Normal items) →
  ∀ item, item ∈ items → getParent item = element.
Proof.
  unfold getChildren. unfold_monad. intros Hget item Hin.
  destruct (getChildren_outline element st) as [o|]; [|by simplify_eq; set_solver].
  destruct (AS.children o) as [cs|]; [|by simplify_eq; set_solver].
  destruct (truthyNum (AS.length o)); [|by simplify_eq; set_solver].
  apply getChildren_loop_items in Hget as (_ & new & -> & Hnew).
  rewrite Forall_forall in Hnew. by apply Hnew.
Qed.

(** The items under [build] have the item of [build] as their parent, and
    that one has none. *)
Lemma getChildren_getParent_witness :
  (getChildren Sample.env Sample.buildItem Sample.listed
   = (Sample.expanded, Normal Sample.buildItems)
   ∧ ∃ item, Sample.buildItems = [item] ∧ getParent item = Sample.buildItem)
  ∧ (getChildren Sample.env None Sample.outlined
     = (Sample.listed, Normal Sample.topItems)
     ∧ ∃ item, Sample.topItems = [item] ∧ getParent item = None).
Proof.
  split.
  - assert (getChildren Sample.env Sample.buildItem Sample.listed
            = (Sample.expanded, Normal Sample.buildItems)) as Hget
      by (vm_compute; reflexivity).
    split; [exact Hget|].
    destruct Sample.buildItems as [|item [|]] eqn:Hitems;
      [vm_compute in Hitems; discriminate Hitems | | vm_compute in Hitems; discriminate Hitems].
    exists item. split; [reflexivity|].
    apply (getChildren_getParent _ _ _ _ _ Hget). left.
  - assert (getChildren Sample.env None Sample.outlined
            = (Sample.listed, Normal Sample.topItems)) as Hget
      by (vm_compute; reflexivity).
    split; [exact Hget|].
    destruct Sample.topItems as [|item [|]] eqn:Hitems;
      [vm_compute in Hitems; discriminate Hitems | | vm_compute in Hitems; discriminate Hitems].
    exists item. split; [reflexivity|].
    apply (getChildren_getParent _ _ _ _ _ Hget). left.
Defined.

(** The items of the sample outline carry the labels of a method and of a
    widget. *)
Example sample_labels :
  map label Sample.topItems
  = [lit "build(BuildContext context)" ++ [32%N; 8594%N; 32%N] ++ lit "Widget"]
  ∧ map label Sample.buildItems = [lit "Container"]
  ∧ map contextValue Sample.buildItems
    = [Some (lit "dart-code:isWidget:--refactor.flutter.wrap.center--")].
Proof. repeat split; vm_compute; reflexivity. Qed.

(** ** C7: quick fixes *)

Lemma hasKindValue_spec (ca : VS.CodeAction) :
  hasKindValue ca = true ↔ ∃ k, VS.kind ca = Some k ∧ VS.value k ≠ [].
Proof.
  unfold hasKindValue. destruct (VS.kind ca) as [k|].
  - simpl. destruct (VS.value k) as [|u v] eqn:Hvalue; split.
    + discriminate.
    + intros (k' & [= <-] & Hne). congruence.
    + intros _. exists k. split; [done|]. by rewrite Hvalue.
    + done.
  - split; [discriminate|]. by intros (k & [=] & _).
Qed.

(** What is kept of the provider's results: the code actions whose kind has
    a non-empty value. *)
Lemma elem_of_codeActionFixes (ca : VS.CodeAction) (results : list VS.Fix) :
  ca ∈ codeActionFixes results
  ↔ VS.IsCodeAction ca ∈ results
    ∧ ∃ k, VS.kind ca = Some k ∧ VS.value k ≠ [].
Proof.
  unfold codeActionFixes.
  rewrite list_elem_of_In, filter_In, <- list_elem_of_In, hasKindValue_spec.
  rewrite list_elem_of_omap. split.
  - intros [(f & Hin & Hf) Hkind]. split; [|done].
    destruct f as [c|ca']; simplify_eq/=. done.
  - intros [Hin Hkind]. split; [|done]. by exists (VS.IsCodeAction ca).
Qed.

Lemma isWidget_kind (c : AS.FlutterOutline) :
  isWidget c = false ↔ AS.kind c = lit "DART_ELEMENT".
Proof.
  unfold isWidget. rewrite negb_false_iff. apply bool_decide_eq_true.
Qed.

(** C7. While the children of an outline are built for an active editor:
    the code-action provider is asked once for each child whose kind is not
    [DART_ELEMENT], in the order of the children, each time for the
    editor's document and the empty range at the position of the child's
    offset, and it is not asked for a child of kind [DART_ELEMENT]; the
    item of a child of kind [DART_ELEMENT] has no fixes; the fixes of the
    item of any other child are, among the provider's results for it, the
    code actions whose kind has a non-empty value, and nothing else. *)
Theorem getChildren_quick_fixes (env : Env) (element : option FlutterWidgetItem)
    (st st' : State) (items : list FlutterWidgetItem) (ed : VS.TextEditor)
    (o : AS.FlutterOutline) (cs : list AS.FlutterOutline) :
  activeEditor st = Some ed →
  getChildren_outline element st = Some o →
  AS.children o = Some cs →
  truthyNum (AS.length o) = true →
  getChildren env element st = (st', Normal items) →
  let uri := VS.uri (VS.document ed) in
  let at_ c := VS.positionAt (VS.document ed) (Num (AS.offset c)) in
  let range c := {| VS.start := at_ c; VS.end_ := at_ c |} in
  effects st' = effects st ++ flat_map (requested ed) cs
  ∧ (∀ c, AS.kind c = lit "DART_ELEMENT" → requested ed c = [])
  ∧ (∀ c, AS.kind c ≠ lit "DART_ELEMENT" →
       requested ed c = [ExecuteCodeActionProvider uri (range c)])
  ∧ (VS.isClosed (VS.document ed) = false →
       Forall2 (λ item c, outline item = c
                  ∧ fixes item = attachedFixes env ed c) items cs)
  ∧ (∀ c, AS.kind c = lit "DART_ELEMENT" → attachedFixes env ed c = [])
  ∧ (∀ c ca, AS.kind c ≠ lit "DART_ELEMENT" →
       (ca ∈ attachedFixes env ed c
        ↔ VS.IsCodeAction ca ∈ executeCodeActionProvider env uri (range c)
          ∧ ∃ k, VS.kind ca = Some k ∧ VS.value k ≠ [])).
Proof.
  intros Hed Ho Hcs Hlen Hget. simpl.
  unfold getChildren in Hget. unfold_monad_in Hget.
  rewrite Ho, Hcs, Hlen, Hed in Hget.
  apply getChildren_loop_fixes in Hget as [Heff Hitems].
  split; [done|].
  split. { intros c Hc. unfold requested. by rewrite (proj2 (isWidget_kind c) Hc). }
  split.
  { intros c Hc. unfold requested.
    destruct (isWidget c) eqn:Hw; [done|]. by apply isWidget_kind in Hw. }
  split.
  { intros Hopen. rewrite Hopen in Hitems. by destruct Hitems as (new & -> & Hnew). }
  split.
  { intros c Hc. unfold attachedFixes. by rewrite (proj2 (isWidget_kind c) Hc). }
  intros c ca Hc. unfold attachedFixes.
  destruct (isWidget c) eqn:Hw; [|by apply isWidget_kind in Hw].
  apply elem_of_codeActionFixes.
Qed.

(** Under [build], the provider is asked once, for [Container] at line 3,
    character 20; of its four results only the code action with a kind is
    attached. *)
Lemma getChildren_quick_fixes_witness :
  effects Sample.expanded
  = effects Sample.listed
    ++ [ExecuteCodeActionProvider (lit "file:///app/lib/main.dart")
          {| VS.start := {| VS.line := 3; VS.character := 20 |};
             VS.end_ := {| VS.line := 3; VS.character := 20 |} |}]
  ∧ Forall2 (λ item c, outline item = c
               ∧ fixes item = attachedFixes Sample.env Sample.mainDart c)
      Sample.buildItems [Sample.container]
  ∧ attachedFixes Sample.env Sample.mainDart Sample.container = [Sample.wrapAction].
Proof.
  pose proof (getChildren_quick_fixes Sample.env Sample.buildItem Sample.listed
    Sample.expanded Sample.buildItems Sample.mainDart Sample.build
    [Sample.container]) as H.
  destruct H as (Heff & _ & _ & Hitems & _).
  - vm_compute; reflexivity.
  - vm_compute; reflexivity.
  - vm_compute; reflexivity.
  - vm_compute; reflexivity.
  - vm_compute; reflexivity.
  - split; [exact Heff|]. split; [exact (Hitems eq_refl)|reflexivity].
Defined.

(** For a closed document the provider is still asked, and no item is
    built. *)
Example getChildren_closed_document :
  result (getChildren Sample.env Sample.buildItem) Sample.closedListed = Normal []
  ∧ RefreshSpec.announced (getChildren Sample.env Sample.buildItem;; ret tt)
      Sample.closedListed
    = requested Sample.closedDart Sample.container
  ∧ treeNodesByLine (exec (getChildren Sample.env Sample.buildItem) Sample.closedListed)
    = treeNodesByLine Sample.closedListed.
Proof. repeat split; vm_compute; reflexivity. Qed.

(** ** C10: the per-line map *)

Lemma pushNode_lookup line node (m : gmap Z (list FlutterWidgetItem)) L items item :
  pushNode line node m !! L = Some items → item ∈ items →
  (∃ items0, m !! L = Some items0 ∧ item ∈ items0) ∨ (L = line ∧ item = node).
Proof.
  unfold pushNode. intros Hlookup Hin.
  destruct (decide (L = line)) as [->|Hne].
  - destruct (m !! line) as [nodes|] eqn:Hline;
      rewrite lookup_insert_eq in Hlookup; simplify_eq.
    + apply elem_of_app in Hin as [Hin|Hin]; [left; by exists nodes|].
      right. split; [done|]. by apply list_elem_of_singleton in Hin.
    + right. split; [done|]. by apply list_elem_of_singleton in Hin.
  - left. exists items. split; [|done].
    destruct (m !! line); by rewrite lookup_insert_ne in Hlookup.
Qed.

Section PerLine.

Variable env : Env.

Lemma getChildren_loop_keyedByLine element editor cs children st st' r :
  MapSpec.keyedByLine st →
  getChildren_loop env element editor cs children st = (st', r) →
  MapSpec.keyedByLine st'.
Proof.
  revert children st. induction cs as [|c rest IH]; intros children st Hkeyed.
  - by intros [= <- <-].
  - rewrite getChildren_loop_cons. unfold stepOutcome.
    repeat case_match; simplify_eq; intros Hloop.
    all: try (by injection Hloop as <- <-).
    all: try (by apply IH in Hloop).
    revert Hloop. apply IH. intros L items item Hlookup Hin. simpl in *.
    match goal with
    | H : FlutterWidgetItem_new _ _ _ _ _ _ = Normal _ |- _ =>
        apply FlutterWidgetItem_new_fields in H as (_ & _ & Houtline & _)
    end.
    destruct (pushNode_lookup _ _ _ _ _ _ Hlookup Hin)
      as [(items0 & Hlookup0 & Hin0) | [-> ->]].
    + by apply (Hkeyed L items0 item).
    + eexists. split; [done|]. by rewrite Houtline.
Qed.

(** The loop files nothing but the items of the children it goes through. *)
Lemma getChildren_loop_filed element editor cs children st st' r :
  getChildren_loop env element editor cs children st = (st', r) →
  ∀ L items item,
    treeNodesByLine st' !! L = Some items → item ∈ items →
    (∃ items0, treeNodesByLine st !! L = Some items0 ∧ item ∈ items0)
    ∨ (outline item ∈ cs ∧ parent item = element).
Proof.
  revert children st. induction cs as [|c rest IH]; intros children st.
  - intros [= <- <-] L items item Hlookup Hin. left. by exists items.
  - rewrite getChildren_loop_cons. unfold stepOutcome.
    assert (∀ s, treeNodesByLine s = treeNodesByLine st →
              getChildren_loop env element editor rest children s = (st', r) →
              ∀ L items item,
                treeNodesByLine st' !! L = Some items → item ∈ items →
                (∃ items0, treeNodesByLine st !! L = Some items0 ∧ item ∈ items0)
                ∨ (outline item ∈ c :: rest ∧ parent item = element)) as Hsame.
    { intros s Hs Hloop L items item Hlookup Hin.
      destruct (IH _ _ Hloop L items item Hlookup Hin) as [Hold | [Hnew ?]].
      - left. by rewrite <- Hs.
      - right. split; [by right|done]. }
    repeat case_match; simplify_eq; intros Hloop.
    all: try (injection Hloop as <- <-; intros L items item Hlookup Hin; left;
              simpl in Hlookup; by exists items).
    all: try (by refine (Hsame _ _ Hloop)).
    intros L items item Hlookup Hin.
    match goal with
    | H : FlutterWidgetItem_new _ _ _ _ _ _ = Normal _ |- _ =>
        apply FlutterWidgetItem_new_fields in H as (_ & Hparent & Houtline & _)
    end.
    destruct (IH _ _ Hloop L items item Hlookup Hin) as [(items0 & Hlookup0 & Hin0) | [Hnew ?]].
    + simpl in Hlookup0.
      destruct (pushNode_lookup _ _ _ _ _ _ Hlookup0 Hin0)
        as [Hold | [-> ->]]; [by left|].
      right. rewrite Houtline. split; [left|done].
    + right. split; [by right|done].
Qed.

Lemma getChildren_filed element st st' r :
  getChildren env element st = (st', r) →
  ∀ L items item,
    treeNodesByLine st' !! L = Some items → item ∈ items →
    (∃ items0, treeNodesByLine st !! L = Some items0 ∧ item ∈ items0)
    ∨ (∃ o cs, getChildren_outline element st = Some o ∧ AS.children o = Some cs
         ∧ outline item ∈ cs ∧ parent item = element).
Proof.
  unfold getChildren. unfold_monad. intros Hget L items item Hlookup Hin.
  destruct (getChildren_outline element st) as [o|];
    [|injection Hget as <- <-; left; by exists items].
  destruct (AS.children o) as [cs|] eqn:Hcs;
    [|injection Hget as <- <-; left; by exists items].
  destruct (truthyNum (AS.length o));
    [|injection Hget as <- <-; left; by exists items].
  destruct (getChildren_loop_filed _ _ _ _ _ _ _ Hget L items item Hlookup Hin)
    as [Hold | [Hnew Hparent]]; [by left|].
  right. by exists o, cs.
Qed.

Lemma getChildren_keyedByLine element st :
  MapSpec.keyedByLine st → MapSpec.keyedByLine (exec (getChildren env element) st).
Proof.
  intros Hkeyed. unfold getChildren. unfold_monad.
  repeat case_match; try done.
  destruct (getChildren_loop _ _ _ _ _ _) as [st' r] eqn:Hloop.
  by eapply getChildren_loop_keyedByLine.
Qed.

Lemma onFlutterOutline_keyedByLine n st :
  MapSpec.keyedByLine st → MapSpec.keyedByLine (exec (onFlutterOutline n) st).
Proof.
  intros Hkeyed. unfold onFlutterOutline. unfold_monad.
  destruct (activeEditor st) as [ed|] eqn:Hed; [|done].
  case_bool_decide; [|done].
  destruct (updateTimeout st); simpl; by intros L items item Hlookup.
Qed.

(** The notification is taken: the map is emptied. *)
Lemma onFlutterOutline_resets n st ed :
  activeEditor st = Some ed →
  AS.file n = VS.fileName (VS.document ed) →
  treeNodesByLine (exec (onFlutterOutline n) st) = ∅.
Proof.
  intros Hed Hfile. unfold onFlutterOutline. unfold_monad.
  rewrite Hed, bool_decide_eq_true_2 by done.
  by destruct (updateTimeout st).
Qed.

(** C10, as amended. After any sequence of notification handling and
    [getChildren] calls, begun in a state where it holds (the one the
    constructor leaves, for one), every item stored under a key [L] of
    [treeNodesByLine] has [positionAt(item.outline.offset).line] equal to [L]
    in the active editor's document; the map is empty right after a
    notification for the active file has been taken; and a [getChildren]
    call adds to the map nothing but items for children of the outline it is
    called for, which is the outline of the element it is given or, without
    element, the stored outline. *)
Theorem treeNodesByLine_keyedByLine (evs : list Event) (st : State) :
  Forall MapSpec.outlineEvent evs →
  MapSpec.keyedByLine st →
  MapSpec.keyedByLine (run env evs st)
  ∧ (∀ s n ed,
       activeEditor s = Some ed →
       AS.file n = VS.fileName (VS.document ed) →
       treeNodesByLine (exec (onFlutterOutline n) s) = ∅)
  ∧ (∀ s element s' r,
       getChildren env element s = (s', r) →
       ∀ L items item,
         treeNodesByLine s' !! L = Some items → item ∈ items →
         (∃ items0, treeNodesByLine s !! L = Some items0 ∧ item ∈ items0)
         ∨ (∃ o cs, getChildren_outline element s = Some o
              ∧ AS.children o = Some cs
              ∧ outline item ∈ cs ∧ parent item = element)).
Proof.
  intros Hevs Hkeyed.
  split; [|split; [intros s n ed; apply onFlutterOutline_resets
                  |intros s element s' r; apply getChildren_filed]].
  revert st Hkeyed. induction Hevs as [|ev evs Hev _ IH]; intros st Hkeyed; [done|].
  simpl. apply IH.
  destruct ev as [n| | |element|]; try done; unfold handle.
  - by apply onFlutterOutline_keyedByLine.
  - pose proof (getChildren_keyedByLine element st Hkeyed) as H.
    unfold exec, bind in *. by destruct (getChildren env element st) as [st' [items|e]].
Qed.

End PerLine.

Lemma partOf_inv (o root : AS.FlutterOutline) :
  MapSpec.partOf o root →
  o = root
  ∨ ∃ cs c, AS.children root = Some cs ∧ c ∈ cs ∧ MapSpec.partOf o c.
Proof.
  intros [|root' cs c Hcs Hc Hsub]; [by left|].
  right. by exists cs, c.
Qed.

(** From the state that the constructor leaves, through two notifications
    and two [getChildren] calls: the item of [Container] is filed under
    line 3, where its offset 320 lies, and a further notification empties
    the map. *)
Lemma treeNodesByLine_keyedByLine_witness :
  treeNodesByLine Sample.staleState !! 3 = Some Sample.buildItems
  ∧ MapSpec.keyedByLine Sample.staleState
  ∧ treeNodesByLine (exec (onFlutterOutline Sample.notification) Sample.staleState) = ∅.
Proof.
  split; [vm_compute; reflexivity|].
  destruct (treeNodesByLine_keyedByLine Sample.env Sample.staleTrace Sample.tracking)
    as (Hkeyed & Hreset & _).
  - repeat constructor.
  - intros L items item Hlookup.
    change (treeNodesByLine Sample.tracking) with (∅ : gmap Z (list FlutterWidgetItem))
      in Hlookup.
    rewrite lookup_empty in Hlookup. discriminate Hlookup.
  - split; [exact Hkeyed|].
    apply (Hreset Sample.staleState Sample.notification Sample.mainDart); reflexivity.
Defined.

(** C10, as first stated, adds that the map never keeps a node of a
    superseded outline. It does: the tree view holds the item of [build]
    from the first outline; the second outline arrives, in which [build]
    holds a [Column] and no [Container]; before the deferred update runs the
    tree view asks for the children of the item it holds, and the item of
    [Container] is filed in the map that the notification had emptied. *)
Lemma treeNodesByLine_keeps_superseded :
  Forall MapSpec.outlineEvent Sample.staleTrace
  ∧ flutterOutline Sample.staleState = Some Sample.notification'
  ∧ treeNodesByLine Sample.staleState !! 3 = Some Sample.buildItems
  ∧ (∃ item, Sample.buildItems = [item] ∧ outline item = Sample.container)
  ∧ ¬ MapSpec.partOf Sample.container Sample.unit'
  ∧ ¬ MapSpec.currentOnly Sample.staleState.
Proof.
  assert (¬ MapSpec.partOf Sample.container Sample.unit') as Hpart.
  { intros H.
    apply partOf_inv in H as [Hself | (cs & c & Hcs & Hc & H)];
      [by apply (f_equal AS.offset) in Hself|].
    injection Hcs as <-. apply list_elem_of_singleton in Hc as ->.
    apply partOf_inv in H as [Hself | (cs & c & Hcs & Hc & H)];
      [by apply (f_equal AS.offset) in Hself|].
    injection Hcs as <-. apply list_elem_of_singleton in Hc as ->.
    apply partOf_inv in H as [Hself | (cs & c & Hcs & Hc & H)];
      [by apply (f_equal AS.offset) in Hself|].
    injection Hcs as <-. by apply elem_of_nil in Hc. }
  split; [repeat constructor|].
  split; [vm_compute; reflexivity|].
  assert (treeNodesByLine Sample.staleState !! 3 = Some Sample.buildItems) as Hlookup
    by (vm_compute; reflexivity).
  split; [exact Hlookup|].
  assert (∃ item, Sample.buildItems = [item] ∧ outline item = Sample.container)
    as (item & Hitems & Hitem) by (eexists; split; vm_compute; reflexivity).
  split; [by exists item|]. split; [exact Hpart|].
  intros Hcurrent.
  destruct (Hcurrent 3 Sample.buildItems item Hlookup) as (fo & root & Hfo & Hroot & Hsub).
  { rewrite Hitems. left. }
  assert (flutterOutline Sample.staleState = Some Sample.notification') as Hfo'
    by (vm_compute; reflexivity).
  rewrite Hfo' in Hfo. injection Hfo as <-.
  injection Hroot as <-. rewrite Hitem in Hsub. by apply Hpart.
Qed.

(** ** C1: the node under the cursor *)

Lemma highlightNodeAt_strictlyInside_spec (offset : Z) (item : FlutterWidgetItem) :
  highlightNodeAt_strictlyInside offset item = true
  ↔ SelectionSpec.strictlyContains (outline item) offset.
Proof.
  unfold highlightNodeAt_strictlyInside, SelectionSpec.strictlyContains.
  rewrite andb_true_iff, Z.ltb_lt.
  destruct (AS.length (outline item)) as [len|]; simpl.
  - rewrite Z.ltb_lt. split.
    + intros [? ?]. by exists len.
    + by intros (len' & [= <-] & ? & ?).
  - split; [by intros [_ ?]|]. by intros (len & [=] & _).
Qed.

Lemma highlightNodeAt_loop_first (offset : Z) (items : list FlutterWidgetItem) (st : State) :
  highlightNodeAt_loop offset items st
  = match SelectionSpec.firstContaining offset items with
    | Some item => (set_effects (effects st ++ [Reveal item]) st, Normal tt)
    | None => (st, Normal tt)
    end.
Proof.
  induction items as [|item rest IH]; [done|]. simpl.
  unfold highlightNodeAt_strictlyInside.
  destruct (AS.length (outline item)) as [len|]; simpl.
  - case_decide as Hin.
    + destruct Hin as [Hlo Hhi].
      by rewrite (proj2 (Z.ltb_lt _ _) Hlo), (proj2 (Z.ltb_lt _ _) Hhi).
    + destruct (AS.offset (outline item) <? offset) eqn:Hlo; simpl; [|done].
      destruct (offset <? AS.offset (outline item) + len) eqn:Hhi; [|done].
      apply Z.ltb_lt in Hlo, Hhi. by destruct Hin.
  - by rewrite andb_false_r.
Qed.

(** While there is an active editor, a selection change with a non-empty
    selection list looks up the line of the first selection's start and
    reveals the first node filed there whose outline strictly contains the
    cursor's offset, if there is one; otherwise it does nothing. *)
Lemma onDidChangeTextEditorSelection_reveals e s rest st ed :
  VS.selections e = s :: rest →
  activeEditor st = Some ed →
  onDidChangeTextEditorSelection e st
  = match SelectionSpec.revealed st ed (VS.start s) with
    | Some item => (set_effects (effects st ++ [Reveal item]) st, Normal tt)
    | None => (st, Normal tt)
    end.
Proof.
  intros Hsel Hed. unfold onDidChangeTextEditorSelection, SelectionSpec.revealed.
  rewrite Hsel. unfold highlightNodeAt. unfold_monad. rewrite Hed.
  destruct (treeNodesByLine st !! VS.line (VS.start s)); [|done].
  apply highlightNodeAt_loop_first.
Qed.

(** A node is not revealed for a cursor on its first offset, nor on the one
    past its last. *)
Lemma strictlyContains_bounds (o : AS.FlutterOutline) (len : Z) :
  AS.length o = Some len →
  ¬ SelectionSpec.strictlyContains o (AS.offset o)
  ∧ ¬ SelectionSpec.strictlyContains o (AS.offset o + len).
Proof.
  intros Hlen. split; intros (len' & Hlen' & ? & ?); simplify_eq; lia.
Qed.

(** Without an entry for the line nothing is revealed, with or without an
    active editor. *)
Lemma highlightNodeAt_no_entry (pos : VS.Position) (st : State) :
  treeNodesByLine st !! VS.line pos = None →
  highlightNodeAt pos st = (st, Normal tt).
Proof. intros H. unfold highlightNodeAt. unfold_monad. by rewrite H. Qed.

(** C1 fails when no editor is active. [main.dart] is outlined and the
    items of [build] and [Container] are filed under lines 2 and 3. The
    user turns to the read-me, which is not analyzable: [setTrackingFile]
    sets [activeEditor] to [null] and leaves the map as it is. A click at
    line 3, character 30 of the read-me finds the entry of line 3, and the
    listener throws on [this.activeEditor.document] before it looks at any
    node. With [main.dart] still active the same click reveals the item of
    [Container]. *)
Theorem highlightNodeAt_without_editor :
  activeEditor Sample.untracked = None
  ∧ treeNodesByLine Sample.untracked !! 3 = Some Sample.buildItems
  ∧ onDidChangeTextEditorSelection (Sample.cursorAt 3 30) Sample.untracked
    = (Sample.untracked, Throw TypeError)
  ∧ ∃ item, Sample.buildItems = [item]
      ∧ onDidChangeTextEditorSelection (Sample.cursorAt 3 30) Sample.expanded
        = (set_effects (effects Sample.expanded ++ [Reveal item]) Sample.expanded,
           Normal tt).
Proof.
  split; [vm_compute; reflexivity|].
  split; [vm_compute; reflexivity|].
  split; [vm_compute; reflexivity|].
  eexists. split; vm_compute; reflexivity.
Qed.

(** ** C2: debouncing *)

Ltac unfold_setters :=
  unfold set_activeEditor, set_flutterOutline, set_treeNodesByLine,
    set_updateTimeout, set_nextObject, set_clock, set_timers, set_nextTimer,
    set_effects; simpl.

Lemma filter_none {A} (P : A → Prop) `{∀ x, Decision (P x)} (l : list A) :
  Forall (λ x, ¬ P x) l → filter P l = [].
Proof.
  induction 1 as [|x l Hx _ IH]; [done|].
  by rewrite filter_cons, decide_False.
Qed.

Lemma last_cons_default {A} (x d : A) (l : list A) :
  List.last (x :: l) d = List.last l x.
Proof.
  revert x d. induction l as [|y l IH]; intros x d; [done|].
  change (List.last (x :: y :: l) d) with (List.last (y :: l) d).
  rewrite IH. symmetry. apply IH.
Qed.

Section Debounce.

Import DebounceSpec.

Variable env : Env.

Lemma clearTimeout_tracked (st : State) :
  timersTracked st →
  filter (λ t, timerId t ≠ default 0%nat (updateTimeout st)) (timers st) = []
  ∧ (updateTimeout st = None → timers st = []).
Proof.
  intros Htracked. split.
  - apply filter_none, Forall_forall. intros t Hin Hne.
    apply Hne. by rewrite (Htracked t Hin).
  - intros Hnone. destruct (timers st) as [|t ts] eqn:Htimers; [done|].
    specialize (Htracked t). rewrite Htimers, Hnone in Htracked.
    by specialize (Htracked (list_elem_of_here _ _)).
Qed.

(** A notification for the active file, in closed form. *)
Lemma onFlutterOutline_taken n st ed :
  activeEditor st = Some ed →
  AS.file n = VS.fileName (VS.document ed) →
  timersTracked st →
  onFlutterOutline n st
  = (mkState (Some ed) (Some n) ∅ (Some (nextTimer st)) (nextObject st) (clock st)
       [{| timerId := nextTimer st; due := clock st + 200 |}] (S (nextTimer st))
       (effects st),
     Normal tt).
Proof.
  intros Hed Hfile Htracked.
  destruct (clearTimeout_tracked st Htracked) as [Hclear Hnone].
  unfold onFlutterOutline. unfold_monad.
  rewrite Hed, bool_decide_eq_true_2 by done.
  unfold clearTimeout, setTimeout.
  destruct (updateTimeout st) as [h|] eqn:Hh; unfold_monad.
  - simpl in Hclear. rewrite Hclear. unfold_setters. by rewrite Hed.
  - unfold_setters. by rewrite Hnone, Hed.
Qed.

Lemma onFlutterOutline_settles n st ed :
  activeEditor st = Some ed →
  AS.file n = VS.fileName (VS.document ed) →
  timersTracked st →
  settled (exec (onFlutterOutline n) st) ed n (effects st).
Proof.
  intros Hed Hfile Htracked. unfold exec.
  rewrite (onFlutterOutline_taken n st ed) by done.
  repeat split. by eexists.
Qed.

(** Less than 200 ms pass: the pending update does not run. *)
Lemma advance_settled_quiet dt st ed n log :
  settled st ed n log → 0 ≤ dt < 200 →
  advance dt st = (set_clock (clock st + dt) st, Normal tt).
Proof.
  intros (_ & _ & _ & _ & h & _ & Htimers) Hdt.
  unfold advance. unfold_monad. rewrite Htimers.
  rewrite !filter_cons, !filter_nil. simpl.
  rewrite decide_False by lia. rewrite decide_True by lia. simpl.
  unfold set_clock. by rewrite Htimers.
Qed.

(** 200 ms or more pass: the pending update runs, once. *)
Lemma advance_settled_fires dt st ed n log :
  settled st ed n log → 200 ≤ dt →
  advance dt st = update (fired dt st).
Proof.
  intros (_ & _ & _ & _ & h & _ & Htimers) Hdt.
  unfold advance. unfold_monad. rewrite Htimers.
  rewrite !filter_cons, !filter_nil. simpl.
  rewrite decide_True by lia. rewrite decide_False by lia. simpl.
  unfold fired, set_timers, set_clock. simpl. unfold bind, ret.
  by destruct (update _) as [st' [[]|e]].
Qed.

Lemma settled_quiet_tracked dt st ed n log :
  settled st ed n log →
  timersTracked (set_clock (clock st + dt) st)
  ∧ activeEditor (set_clock (clock st + dt) st) = Some ed
  ∧ effects (set_clock (clock st + dt) st) = log.
Proof.
  intros (Hed & _ & _ & Hlog & h & Hh & Htimers). simpl.
  split; [|done]. intros t. simpl. rewrite Htimers.
  intros ->%list_elem_of_singleton. done.
Qed.

Lemma burst_settled rest st ed n log :
  settled st ed n log → burst ed rest →
  settled (run env (burstEvents rest) st) ed (lastOf n rest) log.
Proof.
  intros Hsettled Hburst. revert st n Hsettled.
  induction Hburst as [|[gap n'] rest [Hgap Hfile] _ IH]; intros st n Hsettled; [done|].
  simpl in Hgap, Hfile.
  change (run env (burstEvents ((gap, n') :: rest)) st)
    with (run env (burstEvents rest)
            (exec (onFlutterOutline n') (exec (advance gap) st))).
  unfold exec at 2. rewrite (advance_settled_quiet gap st ed n log) by done. simpl.
  destruct (settled_quiet_tracked gap st ed n log Hsettled) as (Htracked & Hed & Hlog).
  replace (lastOf n ((gap, n') :: rest)) with (lastOf n' rest).
  - apply IH. rewrite <- Hlog. by apply onFlutterOutline_settles.
  - unfold lastOf. symmetry. apply last_cons_default.
Qed.

(** C2. A flutter-outline notification whose file is the active editor's
    document file name replaces the stored outline, empties the per-line
    node map, cancels the update that was pending and schedules one 200 ms
    later, and asks nothing of the host. So after a burst of such
    notifications, each less than 200 ms after the one before, the stored
    outline is that of the last one and a single update is pending; nothing
    becomes visible before 200 ms have passed since the last notification,
    and then the update runs once, on the outline of the last
    notification. *)
Theorem onFlutterOutline_debounced (n0 : AS.FlutterOutlineNotification)
    (rest : list (Z * AS.FlutterOutlineNotification)) (st : State)
    (ed : VS.TextEditor) :
  activeEditor st = Some ed →
  AS.file n0 = VS.fileName (VS.document ed) →
  timersTracked st →
  burst ed rest →
  let st1 := exec (onFlutterOutline n0) st in
  let stN := run env (burstEvents rest) st1 in
  (flutterOutline st1 = Some n0
   ∧ treeNodesByLine st1 = ∅
   ∧ updateTimeout st1 = Some (nextTimer st)
   ∧ timers st1 = [{| timerId := nextTimer st; due := clock st + 200 |}]
   ∧ effects st1 = effects st)
  ∧ settled stN ed (lastOf n0 rest) (effects st)
  ∧ (∀ dt, 0 ≤ dt < 200 → effects (exec (advance dt) stN) = effects st)
  ∧ (∀ dt, 200 ≤ dt →
       advance dt stN = update (fired dt stN)
       ∧ flutterOutline (fired dt stN) = Some (lastOf n0 rest)
       ∧ effects (fired dt stN) = effects st).
Proof.
  intros Hed Hfile Htracked Hburst st1 stN.
  assert (settled stN ed (lastOf n0 rest) (effects st)) as HsettledN.
  { apply burst_settled; [|done]. by apply onFlutterOutline_settles. }
  split.
  { subst st1. unfold exec. by rewrite (onFlutterOutline_taken n0 st ed). }
  split; [done|]. split.
  - intros dt Hdt. unfold exec.
    rewrite (advance_settled_quiet dt stN ed _ _ HsettledN Hdt). simpl.
    by destruct HsettledN as (_ & _ & _ & ? & _).
  - intros dt Hdt. split; [by eapply advance_settled_fires|].
    destruct HsettledN as (_ & ? & _ & ? & _). done.
Qed.

End Debounce.

(** Three notifications at 0, 50 and 170 ms: the outline of the third is
    stored, one update is pending, nothing is visible at 369 ms, and at
    370 ms the update runs. *)
Lemma onFlutterOutline_debounced_witness :
  flutterOutline Sample.burstState = Some Sample.notification
  ∧ timers Sample.burstState = [{| timerId := 2; due := 370 |}]
  ∧ effects (exec (advance 199) Sample.burstState) = effects Sample.tracking
  ∧ advance 200 Sample.burstState
    = update (DebounceSpec.fired 200 Sample.burstState).
Proof.
  destruct (onFlutterOutline_debounced Sample.env Sample.notification
              Sample.burstRest Sample.tracking Sample.mainDart)
    as (_ & Hsettled & Hquiet & Hfires).
  - reflexivity.
  - reflexivity.
  - intros t Hin. change (timers Sample.tracking) with (@nil Timer) in Hin.
    inversion Hin.
  - repeat constructor; simpl; lia.
  - destruct Hsettled as (_ & Hstored & _).
    split; [exact Hstored|]. split; [vm_compute; reflexivity|].
    split; [apply Hquiet; lia|]. apply Hfires. lia.
Defined.

(** The states that the provider can reach hold at most the one timer
    whose handle it keeps. *)
Section Tracked.

Import DebounceSpec.

Variable env : Env.

Lemma timersTracked_frame (st st' : State) :
  timers st' ⊆ timers st → updateTimeout st' = updateTimeout st →
  timersTracked st → timersTracked st'.
Proof.
  intros Hsub Hsame Htracked t Hin. rewrite Hsame. apply Htracked. by apply Hsub.
Qed.

Lemma update_frame (st : State) :
  timers (exec update st) = timers st
  ∧ updateTimeout (exec update st) = updateTimeout st.
Proof.
  unfold exec. rewrite update_outcome. by destruct (nothingToShow st).
Qed.

Lemma runTimers_frame (fired : list Timer) (st : State) :
  timers (exec (runTimers fired) st) = timers st
  ∧ updateTimeout (exec (runTimers fired) st) = updateTimeout st.
Proof.
  revert st. induction fired as [|t fired IH]; intros st; [done|].
  change (exec (runTimers (t :: fired)) st)
    with (exec (bind update (λ _, runTimers fired)) st).
  unfold exec, bind.
  destruct (update_frame st) as [Ht Hu]. unfold exec in Ht, Hu.
  destruct (update st) as [st' [[]|e]]; simpl in *.
  - destruct (IH st') as [Ht' Hu']. unfold exec in Ht', Hu'. split; congruence.
  - done.
Qed.

Lemma getChildren_frame element st st' r :
  getChildren env element st = (st', r) →
  activeEditor st' = activeEditor st
  ∧ flutterOutline st' = flutterOutline st
  ∧ updateTimeout st' = updateTimeout st
  ∧ timers st' = timers st
  ∧ clock st' = clock st
  ∧ nextTimer st' = nextTimer st.
Proof.
  unfold getChildren. unfold_monad.
  destruct (getChildren_outline element st) as [o|]; [|by intros [= <- <-]].
  destruct (AS.children o) as [cs|]; [|by intros [= <- <-]].
  destruct (truthyNum (AS.length o)); [|by intros [= <- <-]].
  apply getChildren_loop_frame.
Qed.

Lemma handle_timersTracked (ev : Event) (st : State) :
  timersTracked st → timersTracked (exec (handle env ev) st).
Proof.
  intros Htracked. destruct ev as [n|e|e|element|dt]; unfold handle.
  - unfold onFlutterOutline at 1. unfold exec, bind, get. simpl.
    destruct (activeEditor st) as [ed|] eqn:Hed; [|done].
    case_bool_decide as Hfile; [|done].
    pose proof (onFlutterOutline_taken n st ed Hed Hfile Htracked) as Htaken.
    unfold onFlutterOutline, bind, get in Htaken. simpl in Htaken.
    rewrite Hed, bool_decide_eq_true_2 in Htaken by done. rewrite Htaken.
    intros t. simpl. by intros ->%list_elem_of_singleton.
  - unfold onDidChangeActiveTextEditor, setTrackingFile.
    destruct e as [ed|]; [destruct (isAnalyzable env _)|];
      by apply (timersTracked_frame st).
  - unfold onDidChangeTextEditorSelection.
    destruct (VS.selections e) as [|s rest]; [done|].
    unfold highlightNodeAt. unfold_monad.
    destruct (treeNodesByLine st !! _) as [items|]; [|done].
    destruct (activeEditor st); [|done].
    rewrite highlightNodeAt_loop_first.
    destruct (SelectionSpec.firstContaining _ _); [|done].
    by apply (timersTracked_frame st).
  - unfold exec, bind.
    destruct (getChildren env element st) as [st' r] eqn:Hget.
    apply getChildren_frame in Hget as (_ & _ & Hu & Ht & _).
    assert (timersTracked st') by (apply (timersTracked_frame st); by rewrite ?Ht).
    by destruct r.
  - unfold advance. unfold_monad.
    match goal with
    | |- timersTracked (runTimers ?f ?s).1 =>
        destruct (runTimers_frame f s) as [Ht Hu]; unfold exec in Ht, Hu;
        apply (timersTracked_frame st); rewrite ?Ht, ?Hu
    end; [|done|done].
    simpl. intros t Hin. by apply list_elem_of_filter in Hin as [_ ?].
Qed.

Lemma timersTracked_reachable (evs : list Event) :
  timersTracked (run env evs initialState).
Proof.
  assert (∀ st, timersTracked st → timersTracked (run env evs st)) as Hrun.
  { induction evs as [|ev evs IH]; intros st Hst; [done|].
    simpl. by apply IH, handle_timersTracked. }
  apply Hrun. intros t Hin. by apply elem_of_nil in Hin.
Qed.

End Tracked.

(** ** C3: refreshing the tree *)

Lemma announced_emitted (m : M unit) (st : State) (es : list Effect) :
  effects (exec m st) = effects st ++ es → RefreshSpec.announced m st = es.
Proof.
  unfold RefreshSpec.announced. intros ->. apply drop_app_length.
Qed.

Lemma update_announced (st : State) :
  (UpdateSpec.mustHide st
   ∧ RefreshSpec.announced update st = [SetContext DART_SHOW_FLUTTER_OUTLINE false])
  ∨ (¬ UpdateSpec.mustHide st
     ∧ RefreshSpec.announced update st
       = [SetContext DART_SHOW_FLUTTER_OUTLINE true; FireDidChangeTreeData None]).
Proof.
  rewrite <- nothingToShow_mustHide.
  destruct (nothingToShow st) eqn:Hnothing; [left|right]; (split; [done|]);
    apply announced_emitted; unfold exec; by rewrite update_outcome, Hnothing.
Qed.

(** C3, as amended. When the deferred update that follows a notification
    has something to show, the tree view is told that the whole tree has
    changed: one change event is fired, without an element, and [update]
    never fires a change event for an element. Every [getChildren] call
    that follows builds a new item for each child of the outline asked for:
    none of the items it returns existed before the call. Nothing is
    compared with, or kept from, the tree shown before. *)
Theorem update_refreshes_whole_tree (env : Env) (st : State) :
  (∀ target, FireDidChangeTreeData target ∈ RefreshSpec.announced update st →
     target = None)
  ∧ (¬ UpdateSpec.mustHide st →
       RefreshSpec.announced update st
       = [SetContext DART_SHOW_FLUTTER_OUTLINE true; FireDidChangeTreeData None])
  ∧ (∀ element st' items,
       getChildren env element st = (st', Normal items) →
       ∀ item, item ∈ items →
         ¬ RefreshSpec.allocated st item ∧ RefreshSpec.allocated st' item).
Proof.
  split; [|split].
  - intros target.
    destruct (update_announced st) as [[_ ->] | [_ ->]]; set_solver.
  - intros Hshow. by destruct (update_announced st) as [[? _] | [_ ->]].
  - intros element st' items Hget item Hin. unfold RefreshSpec.allocated.
    unfold getChildren in Hget. unfold_monad_in Hget.
    destruct (getChildren_outline element st) as [o|]; [|simplify_eq; set_solver].
    destruct (AS.children o) as [cs|]; [|simplify_eq; set_solver].
    destruct (truthyNum (AS.length o)); [|simplify_eq; set_solver].
    apply getChildren_loop_items in Hget as (_ & new & -> & Hnew).
    rewrite Forall_forall in Hnew. destruct (Hnew item Hin) as [_ ?]. lia.
Qed.

(** The outline that is shown arrives a second time: the tree view is told
    again that the whole tree has changed, and the item it is given for
    [build] is a new object. *)
Lemma update_refreshes_whole_tree_witness :
  RefreshSpec.announced update Sample.repeatedDue
  = [SetContext DART_SHOW_FLUTTER_OUTLINE true; FireDidChangeTreeData None]
  ∧ ∃ old new, Sample.firstItems = [old] ∧ Sample.repeatedItems = [new]
      ∧ RefreshSpec.allocated (exec update Sample.repeatedDue) old
      ∧ ¬ RefreshSpec.allocated (exec update Sample.repeatedDue) new.
Proof.
  split.
  - apply (update_refreshes_whole_tree Sample.env Sample.repeatedDue).
    rewrite <- nothingToShow_mustHide. vm_compute. discriminate.
  - assert (getChildren Sample.env None (exec update Sample.repeatedDue)
            = (exec (getChildren Sample.env None) (exec update Sample.repeatedDue),
               Normal Sample.repeatedItems)) as Hget by (vm_compute; reflexivity).
    destruct Sample.firstItems as [|old [|]] eqn:Hold;
      [vm_compute in Hold; discriminate Hold| |vm_compute in Hold; discriminate Hold].
    destruct Sample.repeatedItems as [|new [|]] eqn:Hnew;
      [vm_compute in Hnew; discriminate Hnew| |vm_compute in Hnew; discriminate Hnew].
    exists old, new. split; [reflexivity|]. split; [reflexivity|].
    split.
    + vm_compute in Hold. injection Hold as <-. vm_compute. lia.
    + apply (update_refreshes_whole_tree Sample.env (exec update Sample.repeatedDue))
        with (element := None) (st' := exec (getChildren Sample.env None)
                                        (exec update Sample.repeatedDue))
             (items := [new]); [exact Hget|left].
Defined.

(** C3, as first stated, has the tree updated by diffing. When the outline
    that is already shown arrives again, nothing has changed in the widget
    structure; yet the update tells the tree view that the whole tree has
    changed, and the tree view is given another object for [build], with
    the same outline as the one it held. *)
Lemma update_not_incremental :
  flutterOutline Sample.repeatedDue = Some Sample.notification
  ∧ RefreshSpec.announced update Sample.repeatedDue
    = [SetContext DART_SHOW_FLUTTER_OUTLINE true; FireDidChangeTreeData None]
  ∧ ¬ RefreshSpec.incremental Sample.repeatedDue
  ∧ ∃ old new, Sample.firstItems = [old] ∧ Sample.repeatedItems = [new]
      ∧ outline old = outline new ∧ objectId old ≠ objectId new.
Proof.
  split; [vm_compute; reflexivity|].
  assert (RefreshSpec.announced update Sample.repeatedDue
          = [SetContext DART_SHOW_FLUTTER_OUTLINE true; FireDidChangeTreeData None])
    as Hannounced by (vm_compute; reflexivity).
  split; [exact Hannounced|]. split.
  - unfold RefreshSpec.incremental. rewrite Hannounced. set_solver.
  - eexists _, _. split; [vm_compute; reflexivity|].
    split; [vm_compute; reflexivity|]. split; [reflexivity|]. simpl. lia.
Qed.

(** * Further properties *)

(** ** [getChildren]: how it ends *)

Section HowChildrenEnd.

Import Behaviour.

Variable env : Env.

Lemma getChildren_as_loop element st :
  getChildren env element st
  = getChildren_loop env element (activeEditor st) (loopedChildren element st) [] st.
Proof.
  unfold getChildren, loopedChildren. unfold_monad.
  destruct (getChildren_outline element st) as [o|]; [|done].
  destruct (AS.children o); [|done]. by destruct (truthyNum (AS.length o)).
Qed.

(** Without an editor the loop builds nothing and leaves the state alone: it
    stops with an error at the first widget, if there is one. *)
Lemma getChildren_loop_no_editor element cs children st :
  getChildren_loop env element None cs children st
  = if existsb isWidget cs then (st, Throw TypeError) else (st, Normal children).
Proof.
  induction cs as [|c rest IH]; [done|].
  rewrite getChildren_loop_cons. unfold stepOutcome. simpl.
  by destruct (isWidget c).
Qed.

Lemma existsb_isWidget (cs : list AS.FlutterOutline) :
  existsb isWidget cs = true
  ↔ ∃ c, c ∈ cs ∧ AS.kind c ≠ lit "DART_ELEMENT".
Proof.
  rewrite existsb_exists. unfold isWidget. split.
  - intros (c & Hin & Hc). exists c. split; [by apply list_elem_of_In|].
    apply negb_true_iff, bool_decide_eq_false in Hc. done.
  - intros (c & Hin & Hc). exists c. split; [by apply list_elem_of_In|].
    by apply negb_true_iff, bool_decide_eq_false.
Qed.

(** X2. [getChildren] without an active editor. It never builds an item
    and never changes the state; it fails with a [TypeError] exactly when
    one of the children it goes through is not of kind [DART_ELEMENT], and
    returns the empty list otherwise. *)
Theorem getChildren_no_editor (element : option FlutterWidgetItem) (st : State) :
  activeEditor st = None →
  (getChildren env element st = (st, Normal [])
   ∨ getChildren env element st = (st, Throw TypeError))
  ∧ (getChildren env element st = (st, Throw TypeError)
     ↔ ∃ c, c ∈ loopedChildren element st ∧ AS.kind c ≠ lit "DART_ELEMENT").
Proof.
  intros Hed. rewrite getChildren_as_loop, Hed, getChildren_loop_no_editor.
  rewrite <- existsb_isWidget.
  destruct (existsb isWidget _); split; auto; split; done.
Qed.

(** For a closed document the loop asks the provider and builds nothing. *)
Lemma getChildren_loop_closed element ed cs children st :
  VS.isClosed (VS.document ed) = true →
  getChildren_loop env element (Some ed) cs children st
  = (set_effects (effects st ++ flat_map (requested ed) cs) st, Normal children).
Proof.
  intros Hclosed. revert st. induction cs as [|c rest IH]; intros st.
  - simpl. by rewrite set_effects_nil.
  - rewrite getChildren_loop_cons. unfold stepOutcome. rewrite Hclosed, IH.
    by rewrite set_effects_app.
Qed.

Lemma requested_isProviderRequest ed c : Forall isProviderRequest (requested ed c).
Proof. unfold requested. destruct (isWidget c); by repeat constructor. Qed.

Lemma flat_map_requested ed cs : Forall isProviderRequest (flat_map (requested ed) cs).
Proof.
  induction cs as [|c rest IH]; [done|]. simpl.
  apply Forall_app. split; [apply requested_isProviderRequest|done].
Qed.

(** X3. [getChildren] for a closed document. The provider is still asked for
    every child that is not of kind [DART_ELEMENT], but no item is built:
    the empty list is returned and, the requests apart, nothing changes. *)
Theorem getChildren_closed (element : option FlutterWidgetItem) (st : State)
    (ed : VS.TextEditor) :
  activeEditor st = Some ed →
  VS.isClosed (VS.document ed) = true →
  getChildren env element st
  = (set_effects
       (effects st ++ flat_map (requested ed) (loopedChildren element st)) st,
     Normal [])
  ∧ Forall isProviderRequest (flat_map (requested ed) (loopedChildren element st)).
Proof.
  intros Hed Hclosed. split; [|apply flat_map_requested].
  by rewrite getChildren_as_loop, Hed, getChildren_loop_closed.
Qed.

(** However the loop ends, it has asked the provider and nothing else. *)
Lemma getChildren_loop_asks element editor cs children st st' r :
  getChildren_loop env element editor cs children st = (st', r) →
  ∃ reqs, effects st' = effects st ++ reqs ∧ Forall isProviderRequest reqs.
Proof.
  revert children st. induction cs as [|c rest IH]; intros children st.
  - intros [= <- <-]. exists []. by rewrite app_nil_r.
  - rewrite getChildren_loop_cons. unfold stepOutcome.
    assert (∀ s ch, effects s = effects st ++ requested_by editor c →
              getChildren_loop env element editor rest ch s = (st', r) →
              ∃ reqs, effects st' = effects st ++ reqs
                      ∧ Forall isProviderRequest reqs) as Hnext.
    { intros s ch Hs Hloop. apply IH in Hloop as (reqs & -> & Hreqs).
      exists (requested_by editor c ++ reqs). rewrite Hs, <- app_assoc.
      split; [done|]. apply Forall_app. split; [|done].
      destruct editor; [apply requested_isProviderRequest|done]. }
    assert (∀ s, effects s = effects st ++ requested_by editor c →
              ∃ reqs, effects s = effects st ++ reqs
                      ∧ Forall isProviderRequest reqs) as Hstop.
    { intros s Hs. exists (requested_by editor c). split; [done|].
      destruct editor; [apply requested_isProviderRequest|done]. }
    destruct editor as [ed|]; simpl in *.
    + destruct (VS.isClosed (VS.document ed)).
      { intros Hloop. by refine (Hnext _ _ _ Hloop). }
      destruct (FlutterWidgetItem_new _ _ _ _ _ _) as [node|e];
        [|intros [= <- <-]; by apply Hstop].
      destruct (activeEditor st);
        [|intros [= <- <-]; by apply Hstop].
      intros Hloop. by refine (Hnext _ _ _ Hloop).
    + destruct (isWidget c).
      * intros [= <- <-]. apply Hstop. by rewrite app_nil_r.
      * intros Hloop. refine (Hnext _ _ _ Hloop). by rewrite app_nil_r.
Qed.

(** X6. What [getChildren] never does. However it ends, it has asked the host
    for nothing but code actions (it sets no context key, fires no change
    event, reveals nothing), and it leaves the active editor, the stored
    outline, the timer handle and the pending timers as they were. *)
Theorem getChildren_only_asks_provider (element : option FlutterWidgetItem)
    (st : State) :
  (∃ reqs, effects (exec (getChildren env element) st) = effects st ++ reqs
     ∧ Forall isProviderRequest reqs)
  ∧ activeEditor (exec (getChildren env element) st) = activeEditor st
  ∧ flutterOutline (exec (getChildren env element) st) = flutterOutline st
  ∧ updateTimeout (exec (getChildren env element) st) = updateTimeout st
  ∧ timers (exec (getChildren env element) st) = timers st.
Proof.
  unfold exec. destruct (getChildren env element st) as [st' r] eqn:Hget. simpl.
  split.
  - rewrite getChildren_as_loop in Hget. by eapply getChildren_loop_asks.
  - apply getChildren_frame in Hget. intuition.
Qed.

End HowChildrenEnd.

(** ** [getChildren]: what it builds and files *)

Section WhatChildrenBuild.

Import Behaviour.

Variable env : Env.

Lemma pushNode_keeps line node (m : gmap Z (list FlutterWidgetItem)) L items0 :
  m !! L = Some items0 →
  ∃ more, pushNode line node m !! L = Some (items0 ++ more).
Proof.
  intros Hlookup. unfold pushNode. destruct (decide (L = line)) as [->|Hne].
  - rewrite Hlookup, lookup_insert_eq. by exists [node].
  - exists []. rewrite app_nil_r.
    destruct (m !! line); by rewrite lookup_insert_ne.
Qed.


(** The loop only appends to the lists of the map. *)
Lemma getChildren_loop_keeps element editor cs children st st' r :
  getChildren_loop env element editor cs children st = (st', r) →
  ∀ L items0, treeNodesByLine st !! L = Some items0 →
    ∃ more, treeNodesByLine st' !! L = Some (items0 ++ more).
Proof.
  revert children st. induction cs as [|c rest IH]; intros children st.
  - intros [= <- <-] L items0 Hlookup. exists []. by rewrite app_nil_r.
  - rewrite getChildren_loop_cons. unfold stepOutcome.
    assert (∀ s ch, treeNodesByLine s = treeNodesByLine st →
              getChildren_loop env element editor rest ch s = (st', r) →
              ∀ L items0, treeNodesByLine st !! L = Some items0 →
                ∃ more, treeNodesByLine st' !! L = Some (items0 ++ more)) as Hsame.
    { intros s ch Hs Hloop L items0 Hlookup. eapply IH; [done|]. by rewrite Hs. }
    assert (∀ s, treeNodesByLine s = treeNodesByLine st →
              ∀ L items0, treeNodesByLine st !! L = Some items0 →
                ∃ more, treeNodesByLine s !! L = Some (items0 ++ more)) as Hstop.
    { intros s Hs L items0 Hlookup. exists []. by rewrite app_nil_r, Hs. }
    destruct editor as [ed|].
    + destruct (VS.isClosed (VS.document ed)).
      { intros Hloop. by refine (Hsame _ _ _ Hloop). }
      destruct (FlutterWidgetItem_new _ _ _ _ _ _) as [node|e];
        [|intros [= <- <-]; by apply Hstop].
      destruct (activeEditor st) as [active|];
        [|intros [= <- <-]; by apply Hstop].
      intros Hloop L items0 Hlookup.
      destruct (pushNode_keeps (lineOf active c) node _ L items0 Hlookup)
        as [more Hmore].
      destruct (IH _ _ Hloop L _ Hmore) as [more' Hmore'].
      exists (more ++ more'). by rewrite app_assoc.
    + destruct (isWidget c).
      * intros [= <- <-]. by apply Hstop.
      * intros Hloop. by refine (Hsame _ _ _ Hloop).
Qed.

(** X7. [getChildren] never removes a node from the per-line map nor
    reorders one: under every line, the list after the call is the list
    before it with nodes added at its end, however the call ends. *)
Theorem getChildren_keeps_entries (element : option FlutterWidgetItem)
    (st : State) (L : Z) (items0 : list FlutterWidgetItem) :
  treeNodesByLine st !! L = Some items0 →
  ∃ more,
    treeNodesByLine (exec (getChildren env element) st) !! L
    = Some (items0 ++ more).
Proof.
  intros Hlookup. unfold exec.
  destruct (getChildren env element st) as [st' r] eqn:Hget. simpl.
  rewrite getChildren_as_loop in Hget.
  by eapply getChildren_loop_keeps.
Qed.





End WhatChildrenBuild.

(** ** [FlutterWidgetItem]: the constructor *)

Section Built.

Import Behaviour.

Variable env : Env.

Lemma kindValues_normal (fixes : list VS.CodeAction) :
  Forall (λ ca, is_Some (VS.kind ca)) fixes →
  kindValues fixes = Normal (omap (λ ca, VS.value <$> VS.kind ca) fixes).
Proof.
  induction 1 as [|ca rest [k Hk] _ IH]; [done|].
  simpl. by rewrite Hk, IH.
Qed.

Lemma kindValues_throw (fixes : list VS.CodeAction) :
  Exists (λ ca, VS.kind ca = None) fixes → kindValues fixes = Throw TypeError.
Proof.
  induction 1 as [ca rest Hk | ca rest _ IH]; simpl.
  - by rewrite Hk.
  - rewrite IH. by destruct (VS.kind ca), TypeError.
Qed.

Lemma kindValues_cases (fixes : list VS.CodeAction) :
  Forall (λ ca, is_Some (VS.kind ca)) fixes
  ∨ Exists (λ ca, VS.kind ca = None) fixes.
Proof.
  induction fixes as [|ca rest [IH|IH]]; [by left| |].
  - destruct (VS.kind ca) as [k|] eqn:Hk.
    + left. constructor; [by rewrite Hk|done].
    + right. by left.
  - right. by right.
Qed.

Lemma hasLocation_cases (o : AS.FlutterOutline) :
  hasLocation o
  ∨ ∃ e, AS.dartElement o = Some e ∧ AS.location e = None.
Proof.
  unfold hasLocation. destruct (AS.dartElement o) as [e|]; [|by left].
  destruct (AS.location e) eqn:Hl; [by left|]. right. by exists e.
Qed.

Lemma FlutterWidgetItem_new_normal_iff oid parent0 o fs ed :
  (∃ node, FlutterWidgetItem_new env oid parent0 o fs ed = Normal node)
  ↔ hasLocation o ∧ Forall (λ ca, is_Some (VS.kind ca)) fs.
Proof.
  unfold FlutterWidgetItem_new, hasLocation. split.
  - intros [node Hnode].
    destruct (kindValues_cases fs) as [Hkinds|Hkinds].
    + split; [|done]. destruct (AS.dartElement o) as [e|]; [|done].
      by destruct (AS.location e).
    + rewrite (kindValues_throw fs Hkinds) in Hnode.
      destruct (AS.dartElement o) as [e|]; [destruct (AS.location e)|]; done.
  - intros [Hloc Hkinds]. rewrite (kindValues_normal fs Hkinds).
    destruct (AS.dartElement o) as [e|]; [|by eexists].
    destruct (AS.location e); [by eexists|]. by destruct Hloc.
Qed.

(** X10. When the constructor fails. [new FlutterWidgetItem] throws a
    [TypeError] exactly when the outline has a [dartElement] without
    [location], or one of the fixes has no [kind]; otherwise it builds the
    item. *)
Theorem FlutterWidgetItem_new_throws_iff (oid : nat)
    (parent0 : option FlutterWidgetItem) (o : AS.FlutterOutline)
    (fs : list VS.CodeAction) (ed : VS.TextEditor) :
  (FlutterWidgetItem_new env oid parent0 o fs ed = Throw TypeError
   ↔ (∃ e, AS.dartElement o = Some e ∧ AS.location e = None)
     ∨ Exists (λ ca, VS.kind ca = None) fs)
  ∧ ((∃ node, FlutterWidgetItem_new env oid parent0 o fs ed = Normal node)
     ↔ hasLocation o ∧ Forall (λ ca, is_Some (VS.kind ca)) fs).
Proof.
  pose proof (FlutterWidgetItem_new_normal_iff oid parent0 o fs ed) as Hnormal.
  split; [|done]. split.
  - intros Hthrow.
    destruct (hasLocation_cases o) as [Hloc|?]; [|by left].
    destruct (kindValues_cases fs) as [Hkinds|?]; [|by right].
    destruct (proj2 Hnormal (conj Hloc Hkinds)) as [node Hnode]. congruence.
  - intros Hbad.
    destruct (FlutterWidgetItem_new env oid parent0 o fs ed) as [node|[]] eqn:Hnew;
      [|done].
    destruct (proj1 Hnormal (ex_intro _ node eq_refl)) as [Hloc Hkinds].
    destruct Hbad as [(e & He & Hl) | Hex].
    + unfold hasLocation in Hloc. rewrite He, Hl in Hloc. by destruct Hloc.
    + apply Exists_exists in Hex as (ca & Hin & Hca).
      rewrite Forall_forall in Hkinds. destruct (Hkinds ca Hin). congruence.
Qed.


Lemma FlutterWidgetItem_new_more oid parent0 o fs ed node :
  FlutterWidgetItem_new env oid parent0 o fs ed = Normal node →
  collapsibleState node
  = match AS.children o with
    | Some (_ :: _) => VS.Expanded
    | _ => VS.CollapsibleNone
    end
  ∧ ∃ values, kindValues fs = Normal values
      ∧ contextValue node
        = match join (lit "--")
                  (filter (λ c, c ∈ flutterOutlineCommands env) values) with
          | [] => None
          | data => Some (DART_IS_WIDGET ++ lit ":--" ++ data ++ lit "--")
          end.
Proof.
  unfold FlutterWidgetItem_new. intros H.
  destruct (match AS.dartElement o with
            | Some e => _
            | None => _
            end) as [cursor|]; [|done].
  destruct (kindValues fs) as [values|]; [|done].
  injection H as <-. simpl. split; [done|]. exists values. split; [done|].
  by destruct (join _ _).
Qed.

(** X12. An item that is shown without an expander has no children. When the
    constructor gives an item the collapsible state [None], [getChildren]
    of that item returns the empty list and changes nothing, in every
    state. *)
Theorem not_collapsible_no_children (oid : nat)
    (parent0 : option FlutterWidgetItem) (o : AS.FlutterOutline)
    (fs : list VS.CodeAction) (ed : VS.TextEditor) (item : FlutterWidgetItem)
    (st : State) :
  FlutterWidgetItem_new env oid parent0 o fs ed = Normal item →
  collapsibleState item = VS.CollapsibleNone →
  getChildren env (Some item) st = (st, Normal []).
Proof.
  intros Hnew Hstate.
  pose proof (FlutterWidgetItem_new_more _ _ _ _ _ _ Hnew) as [Hc _].
  apply FlutterWidgetItem_new_fields in Hnew as (_ & _ & Houtline & _).
  rewrite getChildren_as_loop. unfold loopedChildren. simpl. rewrite Houtline.
  rewrite Hstate in Hc.
  destruct (AS.children o) as [[|c cs]|]; try done.
  by destruct (truthyNum (AS.length o)).
Qed.

Lemma join_occurs (v : jsstring) (parts : list jsstring) :
  v ∈ parts →
  occursIn (lit "--" ++ v ++ lit "--") (lit "--" ++ join (lit "--") parts ++ lit "--").
Proof.
  induction parts as [|p ps IH]; [by intros ?%elem_of_nil|].
  intros [->|Hin]%elem_of_cons.
  - destruct ps as [|q ps].
    + exists [], []. simpl. by rewrite app_nil_r.
    + exists [], (join (lit "--") (q :: ps) ++ lit "--").
      change (join (lit "--") (p :: q :: ps))
        with (p ++ lit "--" ++ join (lit "--") (q :: ps)).
      simpl. by rewrite <- !app_assoc.
  - destruct (IH Hin) as (before & after & Heq).
    destruct ps as [|q ps]; [by apply elem_of_nil in Hin|].
    exists (lit "--" ++ p ++ before), after.
    change (join (lit "--") (p :: q :: ps))
      with (p ++ lit "--" ++ join (lit "--") (q :: ps)).
    rewrite <- !app_assoc. do 2 f_equal.
    rewrite <- !app_assoc in Heq. exact Heq.
Qed.

Lemma join_nil_inv (sep : jsstring) (parts : list jsstring) (v : jsstring) :
  v ∈ parts → v ≠ [] → join sep parts ≠ [].
Proof.
  induction parts as [|p ps IH]; [by intros ?%elem_of_nil|].
  intros [->|Hin]%elem_of_cons Hv.
  - destruct ps; simpl; [done|]. by destruct p.
  - destruct ps as [|q ps]; [by apply elem_of_nil in Hin|].
    change (join sep (p :: q :: ps)) with (p ++ sep ++ join sep (q :: ps)).
    intros Hnil. apply app_eq_nil in Hnil as [_ Hnil].
    apply app_eq_nil in Hnil as [_ Hnil]. by apply (IH Hin Hv).
Qed.

Lemma kindValues_elem (fs : list VS.CodeAction) (values : list jsstring)
    (ca : VS.CodeAction) (k : VS.CodeActionKind) :
  kindValues fs = Normal values → ca ∈ fs → VS.kind ca = Some k →
  VS.value k ∈ values.
Proof.
  revert values. induction fs as [|ca' rest IH]; intros values;
    [by intros _ ?%elem_of_nil|].
  simpl. destruct (VS.kind ca') as [k'|] eqn:Hk'; [|done].
  destruct (kindValues rest) as [vs|]; [|done].
  intros [= <-] [->|Hin]%elem_of_cons Hk.
  - rewrite Hk' in Hk. injection Hk as <-. left.
  - right. by apply IH.
Qed.

Lemma kindValues_elem_inv (fs : list VS.CodeAction) (values : list jsstring)
    (v : jsstring) :
  kindValues fs = Normal values → v ∈ values →
  ∃ ca k, ca ∈ fs ∧ VS.kind ca = Some k ∧ VS.value k = v.
Proof.
  revert values. induction fs as [|ca' rest IH]; intros values.
  - intros [= <-] ?%elem_of_nil. done.
  - simpl. destruct (VS.kind ca') as [k'|] eqn:Hk'; [|done].
    destruct (kindValues rest) as [vs|]; [|done].
    intros [= <-] [->|Hin]%elem_of_cons.
    + exists ca', k'. split; [left|done].
    + destruct (IH vs eq_refl Hin) as (ca & k & ? & ? & ?).
      exists ca, k. split; [by right|done].
Qed.

(** X11. The context value can be searched by [--ID--]. For an item that the
    constructor builds: every fix whose kind value is a non-empty flutter
    outline command occurs in the item's [contextValue] between two [--];
    and the item has no [contextValue] when none of its fixes has a kind
    value among the flutter outline commands. *)
Theorem contextValue_searchable (oid : nat)
    (parent0 : option FlutterWidgetItem) (o : AS.FlutterOutline)
    (fs : list VS.CodeAction) (ed : VS.TextEditor) (item : FlutterWidgetItem) :
  FlutterWidgetItem_new env oid parent0 o fs ed = Normal item →
  (∀ ca k, ca ∈ fs → VS.kind ca = Some k →
     VS.value k ∈ flutterOutlineCommands env → VS.value k ≠ [] →
     ∃ ctx, contextValue item = Some ctx
       ∧ occursIn (lit "--" ++ VS.value k ++ lit "--") ctx)
  ∧ ((∀ ca k, ca ∈ fs → VS.kind ca = Some k →
        VS.value k ∉ flutterOutlineCommands env) →
     contextValue item = None).
Proof.
  intros Hnew.
  destruct (FlutterWidgetItem_new_more _ _ _ _ _ _ Hnew)
    as (_ & values & Hvalues & Hctx).
  split.
  - intros ca k Hin Hk Hcmd Hne.
    assert (VS.value k ∈ filter (λ c, c ∈ flutterOutlineCommands env) values) as Hv.
    { apply list_elem_of_filter. split; [done|]. by eapply kindValues_elem. }
    pose proof (join_nil_inv (lit "--") _ _ Hv Hne) as Hdata.
    destruct (join_occurs _ _ Hv) as (before & after & Heq).
    rewrite Hctx.
    destruct (join (lit "--") (filter _ values)) as [|u data] eqn:Hjoin; [done|].
    eexists. split; [done|].
    exists (DART_IS_WIDGET ++ lit ":" ++ before), after.
    rewrite <- !app_assoc. f_equal.
    change (lit ":--") with (lit ":" ++ lit "--").
    rewrite <- !app_assoc. f_equal.
    rewrite <- !app_assoc in Heq. exact Heq.
  - intros Hnone. rewrite Hctx.
    replace (filter (λ c, c ∈ flutterOutlineCommands env) values) with (@nil jsstring);
      [done|].
    symmetry. apply filter_none, Forall_forall. intros v Hv Hcmd.
    destruct (kindValues_elem_inv _ _ _ Hvalues Hv) as (ca & k & Hin & Hk & <-).
    by apply (Hnone ca k).
Qed.

End Built.

(** ** [getChildren]: when it returns *)

Section WhenChildrenReturn.

Import Behaviour.

Variable env : Env.






End WhenChildrenReturn.

(** ** The selection listener: how it ends *)

Section SelectionEnds.

Import Behaviour.

Lemma firstContaining_inv (offset : Z) (items : list FlutterWidgetItem)
    (item : FlutterWidgetItem) :
  SelectionSpec.firstContaining offset items = Some item →
  item ∈ items ∧ SelectionSpec.strictlyContains (outline item) offset.
Proof.
  induction items as [|i rest IH]; [done|]. simpl.
  destruct (AS.length (outline i)) as [len|] eqn:Hlen.
  - case_decide as Hi.
    + intros [= <-]. split; [left|]. by exists len.
    + intros H. destruct (IH H). split; [by right|done].
  - intros H. destruct (IH H). split; [by right|done].
Qed.

(** X1. How a selection change ends. The listener throws a [TypeError]
    exactly when the selection list is not empty, the per-line map has an
    entry for the line of the first selection's start, and there is no
    active editor. In every case it either leaves the state as it is or
    reveals one item, which is filed under that line and whose range
    strictly contains the cursor's offset in the active editor's document;
    an item whose range begins on an earlier line is therefore not
    revealed. *)
Theorem onDidChangeTextEditorSelection_outcome
    (e : VS.TextEditorSelectionChangeEvent) (st : State) :
  (result (onDidChangeTextEditorSelection e) st = Throw TypeError
   ↔ ∃ s rest, VS.selections e = s :: rest
       ∧ is_Some (treeNodesByLine st !! VS.line (VS.start s))
       ∧ activeEditor st = None)
  ∧ (exec (onDidChangeTextEditorSelection e) st = st
     ∨ ∃ s rest ed item,
         VS.selections e = s :: rest
         ∧ activeEditor st = Some ed
         ∧ filedUnder st (VS.line (VS.start s)) item
         ∧ SelectionSpec.strictlyContains (outline item)
             (VS.offsetAt (VS.document ed) (VS.start s))
         ∧ exec (onDidChangeTextEditorSelection e) st
           = set_effects (effects st ++ [Reveal item]) st).
Proof.
  unfold result, exec.
  destruct (VS.selections e) as [|s rest] eqn:Hsel.
  { unfold onDidChangeTextEditorSelection. rewrite Hsel. simpl.
    split; [|by left]. split; [done|]. by intros (? & ? & [=] & _). }
  destruct (activeEditor st) as [ed|] eqn:Hed.
  - rewrite (onDidChangeTextEditorSelection_reveals e s rest st ed Hsel Hed).
    unfold SelectionSpec.revealed.
    destruct (treeNodesByLine st !! VS.line (VS.start s)) as [items|] eqn:Hline.
    + destruct (SelectionSpec.firstContaining _ items) as [item|] eqn:Hfirst; simpl.
      * split; [split; [done|]; by intros (? & ? & _ & _ & [=])|].
        right. exists s, rest, ed, item.
        apply firstContaining_inv in Hfirst as [Hin Hinside].
        repeat split; try done. by exists items.
      * split; [|by left]. split; [done|]. by intros (? & ? & _ & _ & [=]).
    + simpl. split; [|by left]. split; [done|]. by intros (? & ? & _ & _ & [=]).
  - unfold onDidChangeTextEditorSelection. rewrite Hsel.
    unfold highlightNodeAt. unfold_monad. rewrite Hed.
    destruct (treeNodesByLine st !! VS.line (VS.start s)) as [items|] eqn:Hline; simpl.
    + split; [|by left]. split; [|done]. intros _. exists s, rest.
      split; [done|]. split; [|done]. rewrite Hline. by eexists.
    + split; [|by left]. split; [done|].
      intros (s' & rest' & [= <- <-] & [items Hitems] & _). congruence.
Qed.

End SelectionEnds.

(** ** The label: no space at either end *)

Section Trimmed.

Import Behaviour.

Lemma trimStart_clean (s : jsstring) : ¬ startsWithSpace (trimStart s).
Proof.
  induction s as [|c s IH]; [by intros []|]. cbn [trimStart].
  destruct (isWhiteSpace c) eqn:Hc; [done|].
  unfold startsWithSpace. congruence.
Qed.

Lemma trimStart_suffix (s : jsstring) : ∃ spaces, s = spaces ++ trimStart s.
Proof.
  induction s as [|c s [spaces IH]]; [by exists []|]. cbn [trimStart].
  destruct (isWhiteSpace c).
  - exists (c :: spaces). simpl. by rewrite <- IH.
  - by exists [].
Qed.

Lemma trim_clean (s : jsstring) :
  ¬ startsWithSpace (trim s) ∧ ¬ endsWithSpace (trim s).
Proof.
  unfold trim, trimEnd, endsWithSpace. rewrite rev_involutive.
  split; [|apply trimStart_clean].
  pose proof (trimStart_clean s) as Hstart.
  destruct (trimStart_suffix (rev (trimStart s))) as [spaces Hspaces].
  apply (f_equal (@rev N)) in Hspaces. rewrite rev_involutive, rev_app_distr in Hspaces.
  destruct (rev (trimStart (rev (trimStart s)))) as [|c t]; [by intros []|].
  rewrite Hspaces in Hstart. exact Hstart.
Qed.

(** X13. A label has no white space at either end: [getLabel] of any outline
    neither begins nor ends with a white-space character (it may be
    empty). *)
Theorem getLabel_trimmed (outline : AS.FlutterOutline) :
  ¬ startsWithSpace (getLabel outline) ∧ ¬ endsWithSpace (getLabel outline).
Proof. rewrite getLabel_parts. apply trim_clean. Qed.

End Trimmed.

(** ** Changing the active editor *)

Section Tracking.

Import Behaviour.

Variable env : Env.

Lemma onFlutterOutline_no_editor n st :
  activeEditor st = None → onFlutterOutline n st = (st, Normal tt).
Proof. intros Hed. unfold onFlutterOutline. unfold_monad. by rewrite Hed. Qed.

Lemma update_no_editor st :
  activeEditor st = None → update st = (UpdateSpec.hidden st, Normal tt).
Proof.
  intros Hed. rewrite update_outcome. unfold nothingToShow. rewrite Hed.
  by destruct (flutterOutline st).
Qed.

Lemma update_no_outline st :
  flutterOutline st = None → update st = (UpdateSpec.hidden st, Normal tt).
Proof.
  intros Hfo. rewrite update_outcome. unfold nothingToShow. by rewrite Hfo.
Qed.

(** X14. Turning away from analyzable files. When the active editor becomes
    none, or one whose document is not analyzable, the tree is hidden and
    the provider has no active editor; the stored outline, the per-line map
    and the pending timers stay as they were. From then on every
    flutter-outline notification is dropped, and an update that was pending
    hides the tree again when it runs. *)
Theorem setTrackingFile_untracks (e : option VS.TextEditor) (st : State) :
  (e = None ∨ ∃ ed, e = Some ed ∧ isAnalyzable env (VS.document ed) = false) →
  exec (setTrackingFile env e) st
  = set_activeEditor None
      (set_effects (effects st ++ [SetContext DART_SHOW_FLUTTER_OUTLINE false]) st)
  ∧ (∀ n, onFlutterOutline n (exec (setTrackingFile env e) st)
          = (exec (setTrackingFile env e) st, Normal tt))
  ∧ update (exec (setTrackingFile env e) st)
    = (UpdateSpec.hidden (exec (setTrackingFile env e) st), Normal tt).
Proof.
  intros He.
  assert (exec (setTrackingFile env e) st
          = set_activeEditor None
              (set_effects (effects st ++ [SetContext DART_SHOW_FLUTTER_OUTLINE false]) st))
    as Hexec.
  { unfold setTrackingFile. destruct He as [-> | (ed & -> & Hna)]; [done|].
    by rewrite Hna. }
  split; [done|]. rewrite Hexec. split.
  - intros n. by apply onFlutterOutline_no_editor.
  - by apply update_no_editor.
Qed.

(** X15. Turning to an analyzable file. When the active editor becomes one
    whose document is analyzable, it becomes the provider's active editor,
    the stored outline is dropped and the analyzer is asked for the
    notifications of its file; the per-line map and the pending timers stay
    as they were. Until a notification for this file is taken, the tree has
    no top-level items and an update that was pending hides it; the next
    notification for this file is taken. *)
Theorem setTrackingFile_tracks (ed : VS.TextEditor) (st : State) :
  isAnalyzable env (VS.document ed) = true →
  exec (setTrackingFile env (Some ed)) st
  = set_flutterOutline None
      (set_activeEditor (Some ed)
         (set_effects
            (effects st ++ [ForceNotificationsFor (VS.fileName (VS.document ed))])
            st))
  ∧ getChildren env None (exec (setTrackingFile env (Some ed)) st)
    = (exec (setTrackingFile env (Some ed)) st, Normal [])
  ∧ update (exec (setTrackingFile env (Some ed)) st)
    = (UpdateSpec.hidden (exec (setTrackingFile env (Some ed)) st), Normal tt)
  ∧ (∀ n, AS.file n = VS.fileName (VS.document ed) →
       flutterOutline (exec (onFlutterOutline n)
                         (exec (setTrackingFile env (Some ed)) st)) = Some n).
Proof.
  intros Ha.
  assert (exec (setTrackingFile env (Some ed)) st
          = set_flutterOutline None
              (set_activeEditor (Some ed)
                 (set_effects
                    (effects st
                     ++ [ForceNotificationsFor (VS.fileName (VS.document ed))])
                    st))) as Hexec.
  { unfold setTrackingFile. by rewrite Ha. }
  split; [done|]. rewrite Hexec. split; [done|]. split.
  - by apply update_no_outline.
  - intros n Hfile. unfold onFlutterOutline. unfold_monad.
    rewrite bool_decide_eq_true_2 by done.
    unfold clearTimeout, setTimeout. unfold_setters.
    by destruct (updateTimeout st); unfold_monad.
Qed.

(** X16. The per-line map outlives a change of editor. After the active
    editor has changed to an analyzable one, a selection change still looks
    up the nodes that were filed for the previous editor, with the offsets
    of the new document: it reveals the first node filed under the cursor's
    line whose range strictly contains that offset. *)
Theorem setTrackingFile_keeps_nodes (ed : VS.TextEditor) (st : State)
    (e : VS.TextEditorSelectionChangeEvent) (s : VS.Range) (rest : list VS.Range) :
  isAnalyzable env (VS.document ed) = true →
  VS.selections e = s :: rest →
  treeNodesByLine (exec (setTrackingFile env (Some ed)) st) = treeNodesByLine st
  ∧ onDidChangeTextEditorSelection e (exec (setTrackingFile env (Some ed)) st)
    = match SelectionSpec.revealed st ed (VS.start s) with
      | Some item =>
          (set_effects
             (effects (exec (setTrackingFile env (Some ed)) st) ++ [Reveal item])
             (exec (setTrackingFile env (Some ed)) st),
           Normal tt)
      | None => (exec (setTrackingFile env (Some ed)) st, Normal tt)
      end.
Proof.
  intros Ha Hsel.
  assert (treeNodesByLine (exec (setTrackingFile env (Some ed)) st)
          = treeNodesByLine st
          ∧ activeEditor (exec (setTrackingFile env (Some ed)) st) = Some ed)
    as [Hmap Hed].
  { unfold setTrackingFile. by rewrite Ha. }
  split; [done|].
  rewrite (onDidChangeTextEditorSelection_reveals e s rest _ ed Hsel Hed).
  unfold SelectionSpec.revealed. by rewrite Hmap.
Qed.

(** X17. [dispose] drops the active editor and disposes of the
    subscriptions, but it does not cancel the update that is pending: the
    timers stay as they were. When that update runs it hides the tree; and
    notifications that still arrive are dropped. *)
Theorem dispose_outcome (st : State) :
  exec dispose st
  = set_effects (effects st ++ [DisposeSubscriptions]) (set_activeEditor None st)
  ∧ timers (exec dispose st) = timers st
  ∧ updateTimeout (exec dispose st) = updateTimeout st
  ∧ update (exec dispose st) = (UpdateSpec.hidden (exec dispose st), Normal tt)
  ∧ (∀ n, onFlutterOutline n (exec dispose st) = (exec dispose st, Normal tt)).
Proof.
  split; [done|]. split; [done|]. split; [done|]. split.
  - by apply update_no_editor.
  - intros n. by apply onFlutterOutline_no_editor.
Qed.

End Tracking.

(** ** What holds in every state the provider reaches *)

Section Reachable.

Import Behaviour DebounceSpec.

Variable env : Env.

Lemma onDidChangeTextEditorSelection_logs e st :
  ∃ es, exec (onDidChangeTextEditorSelection e) st
        = set_effects (effects st ++ es) st.
Proof.
  unfold onDidChangeTextEditorSelection, exec.
  destruct (VS.selections e) as [|s rest];
    [exists []; by rewrite set_effects_nil|].
  unfold highlightNodeAt. unfold_monad.
  destruct (treeNodesByLine st !! _) as [items|];
    [|exists []; by rewrite set_effects_nil].
  destruct (activeEditor st);
    [|exists []; by rewrite set_effects_nil].
  rewrite highlightNodeAt_loop_first.
  destruct (SelectionSpec.firstContaining _ _);
    [by eexists|exists []; by rewrite set_effects_nil].
Qed.

Lemma runTimers_logs (fired : list Timer) (st : State) :
  ∃ es, exec (runTimers fired) st = set_effects (effects st ++ es) st.
Proof.
  revert st. induction fired as [|t fired IH]; intros st.
  - exists []. by rewrite set_effects_nil.
  - change (exec (runTimers (t :: fired)) st)
      with (exec (bind update (λ _, runTimers fired)) st).
    unfold exec, bind. rewrite update_outcome.
    destruct (nothingToShow st); simpl.
    + destruct (IH (UpdateSpec.hidden st)) as [es Hes]. unfold exec in Hes.
      rewrite Hes. eexists. unfold UpdateSpec.hidden. by rewrite set_effects_app.
    + destruct (IH (UpdateSpec.shown st)) as [es Hes]. unfold exec in Hes.
      rewrite Hes. eexists. unfold UpdateSpec.shown. by rewrite set_effects_app.
Qed.

(** What [handle] leaves alone for the events that are neither a
    notification nor a change of editor. *)
Lemma handle_frame (ev : Event) (st : State) :
  match ev with
  | FlutterOutlineArrives _ | ActiveEditorChanges _ => True
  | _ =>
      activeEditor (exec (handle env ev) st) = activeEditor st
      ∧ flutterOutline (exec (handle env ev) st) = flutterOutline st
  end.
Proof.
  destruct ev as [n|e|e|element|dt]; try done; unfold handle.
  - by destruct (onDidChangeTextEditorSelection_logs e st) as [es ->].
  - unfold exec, bind.
    destruct (getChildren env element st) as [st' r] eqn:Hget.
    apply getChildren_frame in Hget as (? & ? & _). by destruct r.
  - unfold advance. unfold_monad.
    match goal with
    | |- context [runTimers ?f ?s] =>
        destruct (runTimers_logs f s) as [es Hes]; unfold exec in Hes; rewrite Hes
    end.
    done.
Qed.

Lemma handle_outlineOfActiveFile (ev : Event) (st : State) :
  outlineOfActiveFile st → outlineOfActiveFile (exec (handle env ev) st).
Proof.
  intros Hinv. pose proof (handle_frame ev st) as Hframe.
  destruct ev as [n|e|e|element|dt].
  - unfold handle, onFlutterOutline. unfold_monad.
    destruct (activeEditor st) as [ed|] eqn:Hed; [|done].
    case_bool_decide as Hfile; [|done].
    intros ed' fo. unfold clearTimeout, setTimeout. unfold_setters.
    destruct (updateTimeout st); unfold_monad; rewrite Hed; by intros [= <-] [= <-].
  - unfold handle, onDidChangeActiveTextEditor, setTrackingFile.
    destruct e as [ed|]; [destruct (isAnalyzable env _)|]; by intros ed' fo.
  - destruct Hframe as [Hed Hfo]. intros ed fo. rewrite Hed, Hfo. by apply Hinv.
  - destruct Hframe as [Hed Hfo]. intros ed fo. rewrite Hed, Hfo. by apply Hinv.
  - destruct Hframe as [Hed Hfo]. intros ed fo. rewrite Hed, Hfo. by apply Hinv.
Qed.

(** X18. The stored outline is always that of the active file. In every state
    that the provider reaches from its initial state, an outline that is
    stored while an editor is active has the file name of that editor's
    document. The file test of [update] therefore never decides: the
    update hides the tree exactly when there is no stored outline, no
    active editor, or no child under the outline's root. *)
Theorem stored_outline_of_active_file (evs : list Event) :
  outlineOfActiveFile (run env evs initialState)
  ∧ ¬ UpdateSpec.outlineOfOtherFile (run env evs initialState)
  ∧ (UpdateSpec.mustHide (run env evs initialState)
     ↔ UpdateSpec.noStoredOutline (run env evs initialState)
       ∨ UpdateSpec.noActiveEditor (run env evs initialState)
       ∨ UpdateSpec.rootWithoutChildren (run env evs initialState)).
Proof.
  assert (∀ st, outlineOfActiveFile st → outlineOfActiveFile (run env evs st)) as Hrun.
  { induction evs as [|ev evs IH]; intros st Hst; [done|].
    simpl. by apply IH, handle_outlineOfActiveFile. }
  assert (outlineOfActiveFile (run env evs initialState)) as Hinv.
  { apply Hrun. by intros ed fo [=]. }
  assert (¬ UpdateSpec.outlineOfOtherFile (run env evs initialState)) as Hother.
  { intros (fo & ed & Hfo & Hed & Hne). by apply Hne, Hinv. }
  split; [done|]. split; [done|].
  unfold UpdateSpec.mustHide. tauto.
Qed.

Lemma handle_timers_length (ev : Event) (st : State) :
  timersTracked st → (length (timers st) ≤ 1)%nat →
  (length (timers (exec (handle env ev) st)) ≤ 1)%nat.
Proof.
  intros Htracked Hlen. destruct ev as [n|e|e|element|dt]; unfold handle.
  - unfold onFlutterOutline at 1. unfold exec, bind, get. simpl.
    destruct (activeEditor st) as [ed|] eqn:Hed; [|done].
    case_bool_decide as Hfile; [|done].
    pose proof (onFlutterOutline_taken n st ed Hed Hfile Htracked) as Htaken.
    unfold onFlutterOutline, bind, get in Htaken. simpl in Htaken.
    rewrite Hed, bool_decide_eq_true_2 in Htaken by done. by rewrite Htaken.
  - unfold onDidChangeActiveTextEditor, setTrackingFile.
    by destruct e as [ed|]; [destruct (isAnalyzable env _)|].
  - by destruct (onDidChangeTextEditorSelection_logs e st) as [es ->].
  - unfold exec, bind.
    destruct (getChildren env element st) as [st' r] eqn:Hget.
    apply getChildren_frame in Hget as (_ & _ & _ & Ht & _).
    destruct r; simpl; by rewrite Ht.
  - unfold advance. unfold_monad.
    match goal with
    | |- context [runTimers ?f ?s] =>
        destruct (runTimers_logs f s) as [es Hes]; unfold exec in Hes; rewrite Hes
    end.
    simpl. etrans; [apply length_filter|done].
Qed.

(** X19. Never two updates pending. In every state that the provider reaches
    from its initial state, at most one timer is pending, and it is the one
    whose handle the provider holds in [updateTimeout]. *)
Theorem at_most_one_update_pending (evs : list Event) :
  timers (run env evs initialState) = []
  ∨ ∃ t, timers (run env evs initialState) = [t]
      ∧ updateTimeout (run env evs initialState) = Some (timerId t).
Proof.
  assert (∀ st, timersTracked st ∧ (length (timers st) ≤ 1)%nat →
            timersTracked (run env evs st)
            ∧ (length (timers (run env evs st)) ≤ 1)%nat) as Hrun.
  { induction evs as [|ev evs IH]; intros st [Ht Hl]; [done|].
    simpl. apply IH. split.
    - by apply handle_timersTracked.
    - by apply handle_timers_length. }
  destruct (Hrun initialState) as [Htracked Hlen].
  { split; [|simpl; lia]. intros t Hin. by apply elem_of_nil in Hin. }
  destruct (timers (run env evs initialState)) as [|t [|t' ts]] eqn:Htimers.
  - by left.
  - right. exists t. split; [done|]. apply Htracked. rewrite Htimers. left.
  - simpl in Hlen. lia.
Qed.

End Reachable.

(** ** The examples of the further properties *)

(** After the user has turned to the read-me, the children of [build]
    cannot be listed: [Container] is a widget. *)
Lemma getChildren_no_editor_witness :
  activeEditor Sample.untracked = None
  ∧ Sample.container ∈ Behaviour.loopedChildren Sample.buildItem Sample.untracked
  ∧ getChildren Sample.env Sample.buildItem Sample.untracked
    = (Sample.untracked, Throw TypeError).
Proof.
  assert (activeEditor Sample.untracked = None) as Hed by (vm_compute; reflexivity).
  assert (Sample.container ∈ Behaviour.loopedChildren Sample.buildItem Sample.untracked)
    as Hin by (vm_compute; left).
  split; [exact Hed|]. split; [exact Hin|].
  apply (getChildren_no_editor Sample.env Sample.buildItem Sample.untracked Hed).
  exists Sample.container. split; [exact Hin|]. vm_compute. discriminate.
Defined.

(** With the document of [main.dart] closed, the provider is asked for
    [Container] and nothing is built. *)
Lemma getChildren_closed_witness :
  getChildren Sample.env Sample.buildItem Sample.closedListed
  = (set_effects
       (effects Sample.closedListed
        ++ requested Sample.closedDart Sample.container) Sample.closedListed,
     Normal []).
Proof.
  destruct (getChildren_closed Sample.env Sample.buildItem Sample.closedListed
              Sample.closedDart) as [Hget _].
  - reflexivity.
  - reflexivity.
  - exact Hget.
Defined.

(** The tree view asks for the top-level items a second time: the item of
    [build] that was filed under line 2 is still the first one there. *)
Lemma getChildren_keeps_entries_witness :
  treeNodesByLine Sample.listed !! 2 = Some Sample.topItems
  ∧ ∃ more,
      treeNodesByLine (exec (getChildren Sample.env None) Sample.listed) !! 2
      = Some (Sample.topItems ++ more).
Proof.
  assert (treeNodesByLine Sample.listed !! 2 = Some Sample.topItems) as Hlookup
    by (vm_compute; reflexivity).
  split; [exact Hlookup|].
  exact (getChildren_keeps_entries Sample.env None Sample.listed 2 Sample.topItems
           Hlookup).
Defined.



(** The item of [Text], which has no children, is shown without an expander
    and has no items under it. *)
Lemma not_collapsible_no_children_witness :
  ∃ item,
    FlutterWidgetItem_new Sample.env 2 None Sample.text [] Sample.mainDart
    = Normal item
    ∧ getChildren Sample.env (Some item) Sample.expanded
      = (Sample.expanded, Normal []).
Proof.
  destruct (FlutterWidgetItem_new Sample.env 2 None Sample.text [] Sample.mainDart)
    as [item|e] eqn:Hnew; [|vm_compute in Hnew; discriminate Hnew].
  exists item. split; [reflexivity|].
  apply (not_collapsible_no_children Sample.env 2 None Sample.text []
           Sample.mainDart item Sample.expanded Hnew).
  vm_compute in Hnew. injection Hnew as <-. reflexivity.
Defined.

(** The item of [Container], with the fix that wraps it in a [Center], can
    be found by [--refactor.flutter.wrap.center--]. *)
Lemma contextValue_searchable_witness :
  ∃ item ctx,
    FlutterWidgetItem_new Sample.env 1 Sample.buildItem Sample.container
      [Sample.wrapAction] Sample.mainDart = Normal item
    ∧ contextValue item = Some ctx
    ∧ Behaviour.occursIn (lit "--refactor.flutter.wrap.center--") ctx.
Proof.
  destruct (FlutterWidgetItem_new Sample.env 1 Sample.buildItem Sample.container
              [Sample.wrapAction] Sample.mainDart)
    as [item|e] eqn:Hnew; [|vm_compute in Hnew; discriminate Hnew].
  destruct (contextValue_searchable Sample.env 1 Sample.buildItem Sample.container
              [Sample.wrapAction] Sample.mainDart item Hnew) as [Hfound _].
  destruct (Hfound Sample.wrapAction
              {| VS.value := lit "refactor.flutter.wrap.center" |})
    as (ctx & Hctx & Hoccurs).
  - left.
  - reflexivity.
  - left.
  - discriminate.
  - exists item, ctx. split; [reflexivity|]. split; [exact Hctx|exact Hoccurs].
Defined.



(** The user turns to the read-me: the tree is hidden, and the outline of
    [main.dart] that arrives afterwards is dropped. *)
Lemma setTrackingFile_untracks_witness :
  activeEditor (exec (setTrackingFile Sample.env (Some Sample.readme)) Sample.expanded)
  = None
  ∧ onFlutterOutline Sample.notification'
      (exec (setTrackingFile Sample.env (Some Sample.readme)) Sample.expanded)
    = (exec (setTrackingFile Sample.env (Some Sample.readme)) Sample.expanded,
       Normal tt).
Proof.
  destruct (setTrackingFile_untracks Sample.env (Some Sample.readme) Sample.expanded)
    as (Hexec & Hdrop & _).
  - right. exists Sample.readme. split; reflexivity.
  - split; [rewrite Hexec; reflexivity|]. apply Hdrop.
Defined.

(** The user turns to [other.dart]: the tree has no top-level items until
    the outline of [other.dart] arrives, which is taken. *)
Lemma setTrackingFile_tracks_witness :
  getChildren Sample.env None Sample.switched = (Sample.switched, Normal [])
  ∧ flutterOutline (exec (onFlutterOutline Sample.otherNotification) Sample.switched)
    = Some Sample.otherNotification.
Proof.
  destruct (setTrackingFile_tracks Sample.env Sample.otherDart Sample.expanded)
    as (_ & Hempty & _ & Htaken).
  - reflexivity.
  - split; [exact Hempty|]. apply Htaken. reflexivity.
Defined.

(** With [other.dart] active, a click at its line 3, character 30 reveals
    the item of [Container], a node of [main.dart]. *)
Lemma setTrackingFile_keeps_nodes_witness :
  ∃ item, Sample.buildItems = [item]
    ∧ onDidChangeTextEditorSelection (Sample.cursorAt 3 30) Sample.switched
      = (set_effects (effects Sample.switched ++ [Reveal item]) Sample.switched,
         Normal tt).
Proof.
  destruct (setTrackingFile_keeps_nodes Sample.env Sample.otherDart Sample.expanded
              (Sample.cursorAt 3 30)
              {| VS.start := {| VS.line := 3; VS.character := 30 |};
                 VS.end_ := {| VS.line := 3; VS.character := 30 |} |} [])
    as [_ Hreveal].
  - reflexivity.
  - reflexivity.
  - destruct Sample.buildItems as [|item [|]] eqn:Hitems;
      [vm_compute in Hitems; discriminate Hitems | | vm_compute in Hitems; discriminate Hitems].
    exists item. split; [reflexivity|].
    fold Sample.switched in Hreveal. rewrite Hreveal.
    vm_compute in Hitems. injection Hitems as <-. vm_compute. reflexivity.
Defined.
